(** * Battery Management System: the simulation core of both dashboards

  A shallow embedding of the state-of-charge estimator, the health scorer,
  the status classifier, the per-tick updates, the history buffers and the
  task sequencer of [Battery_Management_ui.py] (module [V1]) and
  [Enhanced_bms.py] (module [V2]).

  Python floats are modelled as exact rationals ([Q]); calls of
  [random.uniform] / [random.randint] and of [datetime.now] are explicit
  inputs of the functions that make them. *)

From Stdlib Require Import Ascii String List Sorted QArith Qabs Qround Qminmax Lqa Lia.
From stdpp Require Import base option list strings gmap fin_maps.

(** ** The Python primitives the two scripts use *)

Module Py.

Local Open Scope Q_scope.

(** [a < b] on numbers, as a boolean *)
Definition ltb (x y : Q) : bool := negb (Qle_bool y x).
Definition gtb (x y : Q) : bool := ltb y x.
Definition geb (x y : Q) : bool := Qle_bool y x.

(** [max(a, b)]: the second argument wins only when it is strictly greater *)
Definition max (a b : Q) : Q := if gtb b a then b else a.

(** [min(a, b)]: the second argument wins only when it is strictly smaller *)
Definition min (a b : Q) : Q := if ltb b a then b else a.

(** [abs(x)] *)
Definition abs (x : Q) : Q := Qabs x.

(** rounding to the nearest integer, ties to the even one *)
Definition round_half_even (x : Q) : Z :=
  let f := Qfloor x in
  match Qcompare (x - inject_Z f) (1 # 2) with
  | Lt => f
  | Gt => (f + 1)%Z
  | Eq => if Z.even f then f else (f + 1)%Z
  end.

(** [round(x, ndigits)] *)
Definition round (x : Q) (ndigits : nat) : Q :=
  let scale := (10 ^ Z.of_nat ndigits)%Z in
  Qmake (round_half_even (x * inject_Z scale)) (Z.to_pos scale).

(** [str.lower()] on ASCII strings *)
Definition lower_ascii (c : ascii) : ascii :=
  let n := nat_of_ascii c in
  if ((65 <=? n)%nat && (n <=? 90)%nat)%bool then ascii_of_nat (n + 32) else c.

Fixpoint lower (s : string) : string :=
  match s with
  | EmptyString => EmptyString
  | String c rest => String (lower_ascii c) (lower rest)
  end.

(** [d.get(key, default)] *)
Definition get {V : Type} (d : gmap string V) (key : string) (dflt : V) : V :=
  default dflt (d !! key).

(** [l[-n:]], the last [n] items of a list (the whole list when it is
    shorter) *)
Definition last_items {A : Type} (n : nat) (l : list A) : list A :=
  drop (length l - n) l.

(** [l.append(x)] *)
Definition append {A : Type} (l : list A) (x : A) : list A := l ++ [x].

(** [sum(xs)] and [np.mean(xs)]; the dashboards take means of the cells only
    when there is at least one cell *)
Definition sum (xs : list Q) : Q := foldl Qplus 0 xs.
Definition mean (xs : list Q) : Q := sum xs / inject_Z (Z.of_nat (length xs)).

(** [sep.join(items)] *)
Fixpoint join (sep : string) (items : list string) : string :=
  match items with
  | [] => EmptyString
  | [x] => x
  | x :: rest => String.append x (String.append sep (join sep rest))
  end.

End Py.

Notation "x <? y" := (Py.ltb x y) : Q_scope.
Notation "x >? y" := (Py.gtb x y) : Q_scope.
Notation "x >=? y" := (Py.geb x y) : Q_scope.

(** ** Variant 1: [Battery_Management_ui.py] *)

Module V1.

Local Open Scope string_scope.
Local Open Scope Q_scope.

Definition voltage_ranges : gmap string (Q * Q) :=
  <["lfp" := (2.5, 3.65)]>
  (<["nmc" := (3.0, 4.2)]>
  (<["nimh" := (1.0, 1.4)]>
  (<["lead-acid" := (1.8, 2.1)]> ∅))).

Definition calculate_soc (voltage : Q) (cell_type : string) : Q :=
  let '(min_v, max_v) := Py.get voltage_ranges (Py.lower cell_type) (3.0, 4.2) in
  let soc := ((voltage - min_v) / (max_v - min_v)) * 100 in
  Py.max 0 (Py.min 100 soc).

Definition optimal_voltages : gmap string Q :=
  <["lfp" := 3.3]>
  (<["nmc" := 3.7]>
  (<["nimh" := 1.25]>
  (<["lead-acid" := 2.0]> ∅))).

(** [noise] is the value drawn by [random.uniform(-2, 2)]. *)
Definition calculate_battery_health
    (voltage current temp soc : Q) (cell_type : string) (noise : Q) : Q :=
  let health_score := 100 in
  let health_score :=
    if temp >? 50 then health_score - Py.min 30 ((temp - 50) * 3)
    else if temp >? 40 then health_score - (temp - 40) * 1.5
    else if temp <? 0 then health_score - Py.min 25 (Py.abs temp * 2)
    else if temp <? 10 then health_score - (10 - temp) * 0.8
    else health_score in
  let optimal_v := Py.get optimal_voltages (Py.lower cell_type) 3.7 in
  let voltage_deviation := Py.abs (voltage - optimal_v) in
  let health_score := health_score - Py.min 20 (voltage_deviation * 15) in
  let abs_current := Py.abs current in
  let health_score :=
    if abs_current >? 8 then health_score - Py.min 25 ((abs_current - 8) * 3)
    else if abs_current >? 5 then health_score - (abs_current - 5) * 1.5
    else health_score in
  let health_score :=
    if soc <? 10 then health_score - (10 - soc) * 2
    else if soc >? 95 then health_score - (soc - 95) * 1.5
    else if soc <? 20 then health_score - (20 - soc) * 0.5
    else if soc >? 90 then health_score - (soc - 90) * 0.8
    else health_score in
  let health_score := health_score + noise in
  Py.max 0 (Py.min 100 health_score).

(** The result is the triple [(status, status_class, suggestions)];
    [suggestions.append(x)] is [Py.append suggestions x]. *)
Definition get_detailed_cell_status
    (health temp voltage soc : Q) (cell_type : string)
    : string * string * list string :=
  let suggestions : list string := [] in
  let '(status, status_class, suggestions) :=
    if health >=? 95 then ("Excellent", "status-excellent", suggestions)
    else if health >=? 85 then ("Good", "status-good", suggestions)
    else if health >=? 70 then
      ("Normal", "status-normal", Py.append suggestions "Monitor regularly")
    else if health >=? 50 then
      ("Warning", "status-warning", Py.append suggestions "Check cell parameters")
    else if health >=? 30 then
      ("Critical", "status-critical", Py.append suggestions "Immediate attention required")
    else
      ("Danger", "status-danger", Py.append suggestions "Replace cell immediately") in
  let suggestions :=
    if temp >? 45 then Py.append suggestions "Cool down the battery"
    else if temp <? 5 then Py.append suggestions "Warm up the battery"
    else suggestions in
  let suggestions :=
    if soc <? 15 then Py.append suggestions "Charge battery soon"
    else if soc >? 95 then Py.append suggestions "Avoid overcharging"
    else suggestions in
  let optimal_v := Py.get optimal_voltages (Py.lower cell_type) 3.7 in
  let suggestions :=
    if Py.abs (voltage - optimal_v) >? 0.3
    then Py.append suggestions "Check voltage regulation"
    else suggestions in
  (status, status_class, suggestions).

(** One entry of [st.session_state.cells_data]. *)
Record Cell := mkCell {
  type : string;
  voltage : Q;
  current : Q;
  temp : Q;
  capacity : Q;
  soc : Q;
  health : Q
}.

(** The sidebar's [cells_data[cell_key].update({...})]; the four inputs are
    the values of the cell's select box and sliders, [noise] the draw of
    the health scorer. *)
Definition sidebar_update
    (cell_type : string) (voltage current temp : Q) (noise : Q) (cell : Cell) : Cell :=
  {| type := cell_type;
     voltage := voltage;
     current := current;
     temp := temp;
     capacity := Py.round (voltage * Py.abs current) 2;
     soc := calculate_soc voltage cell_type;
     health := calculate_battery_health voltage current temp
                 (calculate_soc voltage cell_type) cell_type noise |}.

(** The four random draws the simulation loop makes for one cell:
    [random.uniform(-noise_level, noise_level)],
    [random.uniform(-noise_level*0.02, noise_level*0.02)],
    [random.uniform(-noise_level*0.5, noise_level*0.5)] and the health
    scorer's [random.uniform(-2, 2)]. *)
Record Draws := mkDraws {
  temp_draw : Q;
  voltage_draw : Q;
  current_draw : Q;
  health_draw : Q
}.

Definition set_temp (x : Q) (c : Cell) : Cell :=
  mkCell (type c) (voltage c) (current c) x (capacity c) (soc c) (health c).
Definition set_voltage (x : Q) (c : Cell) : Cell :=
  mkCell (type c) x (current c) (temp c) (capacity c) (soc c) (health c).
Definition set_current (x : Q) (c : Cell) : Cell :=
  mkCell (type c) (voltage c) x (temp c) (capacity c) (soc c) (health c).
Definition set_soc (x : Q) (c : Cell) : Cell :=
  mkCell (type c) (voltage c) (current c) (temp c) (capacity c) x (health c).
Definition set_capacity (x : Q) (c : Cell) : Cell :=
  mkCell (type c) (voltage c) (current c) (temp c) x (soc c) (health c).
Definition set_health (x : Q) (c : Cell) : Cell :=
  mkCell (type c) (voltage c) (current c) (temp c) (capacity c) (soc c) x.

(** The body of the simulation loop for one cell. *)
Definition tick_cell (d : Draws) (cell : Cell) : Cell :=
  let temp_variation := temp_draw d in
  let temp_variation :=
    if Py.abs (current cell) >? 3
    then temp_variation + Py.abs (current cell) * 0.1
    else temp_variation in
  let cell := set_temp (temp cell + temp_variation) cell in
  let cell := set_temp (Py.max (-10) (Py.min 70 (temp cell))) cell in
  let voltage_variation := voltage_draw d in
  let voltage_variation :=
    if current cell <? 0
    then voltage_variation - Py.abs (current cell) * 0.002
    else voltage_variation in
  let cell := set_voltage (voltage cell + voltage_variation) cell in
  let cell := set_voltage (Py.max 0.1 (Py.min 5.0 (voltage cell))) cell in
  let current_variation := current_draw d in
  let cell := set_current (current cell + current_variation) cell in
  let cell := set_current (Py.max (-15) (Py.min 15 (current cell))) cell in
  let cell := set_soc (calculate_soc (voltage cell) (type cell)) cell in
  let cell := set_capacity (Py.round (voltage cell * Py.abs (current cell)) 2) cell in
  set_health
    (calculate_battery_health (voltage cell) (current cell) (temp cell)
       (soc cell) (type cell) (health_draw d))
    cell.

(** [cells_data] is a dict in insertion order: [cell_1], [cell_2], ...;
    [rnd] gives the draws made while the loop is at a key. *)
Definition tick_cells (rnd : string -> Draws) (cells : list (string * Cell))
    : list (string * Cell) :=
  map (fun kc => (fst kc, tick_cell (rnd (fst kc)) (snd kc))) cells.

(** An entry of [data_points] and an entry of [historical_data]. *)
Record DataPoint := mkDataPoint {
  dp_timestamp : Q;
  dp_cell_id : string;
  dp_voltage : Q;
  dp_current : Q;
  dp_temperature : Q;
  dp_soc : Q;
  dp_health : Q
}.

Record Snapshot := mkSnapshot {
  hs_timestamp : Q;
  hs_avg_voltage : Q;
  hs_avg_temp : Q;
  hs_avg_soc : Q;
  hs_avg_health : Q;
  hs_total_capacity : Q
}.

Definition data_point (current_time : Q) (kc : string * Cell) : DataPoint :=
  {| dp_timestamp := current_time;
     dp_cell_id := fst kc;
     dp_voltage := voltage (snd kc);
     dp_current := current (snd kc);
     dp_temperature := temp (snd kc);
     dp_soc := soc (snd kc);
     dp_health := health (snd kc) |}.

Definition snapshot (current_time : Q) (cells : list (string * Cell)) : Snapshot :=
  let total_voltage := Py.sum (map (fun kc => voltage (snd kc)) cells) in
  {| hs_timestamp := current_time;
     hs_avg_voltage := total_voltage / inject_Z (Z.of_nat (length cells));
     hs_avg_temp := Py.mean (map (fun kc => temp (snd kc)) cells);
     hs_avg_soc := Py.mean (map (fun kc => soc (snd kc)) cells);
     hs_avg_health := Py.mean (map (fun kc => health (snd kc)) cells);
     hs_total_capacity := Py.sum (map (fun kc => capacity (snd kc)) cells) |}.

(** The part of [st.session_state] the simulation loop works on. *)
Record Session := mkSession {
  cells_data : list (string * Cell);
  historical_data : list Snapshot;
  data_points : list DataPoint
}.

(** [if len(h) > cap: h = h[-cap:]] *)
Definition keep_last {A : Type} (cap : nat) (h : list A) : list A :=
  if (cap <? length h)%nat then Py.last_items cap h else h.

(** One pass of the block under [if st.session_state.simulation_running]:
    record the cells, trim both buffers, then update every cell. *)
Definition simulation_tick (current_time : Q) (rnd : string -> Draws) (s : Session)
    : Session :=
  let data_points :=
    foldl (fun acc kc => Py.append acc (data_point current_time kc))
      (data_points s) (cells_data s) in
  let historical_data := Py.append (historical_data s) (snapshot current_time (cells_data s)) in
  let historical_data := keep_last 100 historical_data in
  let data_points := keep_last 500 data_points in
  {| cells_data := tick_cells rnd (cells_data s);
     historical_data := historical_data;
     data_points := data_points |}.

(** The loop run tick after tick, one clock reading and one random source
    per tick; and the snapshots and data points it appends on the way, in
    the order of their appending. *)
Fixpoint simulation (ticks : list (Q * (string -> Draws))) (s : Session) : Session :=
  match ticks with
  | [] => s
  | (current_time, rnd) :: rest => simulation rest (simulation_tick current_time rnd s)
  end.

Fixpoint appended_snapshots (ticks : list (Q * (string -> Draws))) (s : Session)
    : list Snapshot :=
  match ticks with
  | [] => []
  | (current_time, rnd) :: rest =>
    snapshot current_time (cells_data s)
    :: appended_snapshots rest (simulation_tick current_time rnd s)
  end.

Fixpoint appended_points (ticks : list (Q * (string -> Draws))) (s : Session)
    : list DataPoint :=
  match ticks with
  | [] => []
  | (current_time, rnd) :: rest =>
    (map (data_point current_time) (cells_data s)
     ++ appended_points rest (simulation_tick current_time rnd s))%list
  end.

(** The colour of a cell's bars in the monitoring charts. *)
Definition health_color (health : Q) : string :=
  if health >=? 85 then "#28a745"
  else if health >=? 70 then "#17a2b8"
  else if health >=? 50 then "#ffc107"
  else "#dc3545".

(** The status of a cell of the store, as every display computes it. *)
Definition cell_status (data : Cell) : string * string * list string :=
  get_detailed_cell_status (health data) (temp data) (voltage data) (soc data) (type data).

(** The status distribution of the pie chart:
    [status_counts[status] = status_counts.get(status, 0) + 1] for every
    cell. *)
Definition status_counts (cells : list (string * Cell)) : gmap string nat :=
  foldl (fun status_counts kc =>
           let '(status, _, _) := cell_status (snd kc) in
           <[status := (Py.get status_counts status 0%nat + 1)%nat]> status_counts)
        ∅ cells.

(** A row of the data frame of [create_download_data].  The timestamp is
    kept as the clock reading; its formatting by [strftime] is not
    modelled. *)
Record Row := mkRow {
  Timestamp : Q;
  Cell_ID : string;
  Cell_Type : string;
  Voltage_V : Q;
  Current_A : Q;
  Temperature_C : Q;
  SOC_Percent : Q;
  Health_Percent : Q;
  Capacity_Wh : Q;
  Status : string;
  Suggestions : string
}.

Definition download_row (timestamp : Q) (kc : string * Cell) : Row :=
  let cell_key := fst kc in
  let cell_data := snd kc in
  let '(status, _, suggestions) := cell_status cell_data in
  {| Timestamp := timestamp;
     Cell_ID := cell_key;
     Cell_Type := type cell_data;
     Voltage_V := Py.round (voltage cell_data) 3;
     Current_A := Py.round (current cell_data) 3;
     Temperature_C := Py.round (temp cell_data) 1;
     SOC_Percent := Py.round (soc cell_data) 1;
     Health_Percent := Py.round (health cell_data) 1;
     Capacity_Wh := Py.round (capacity cell_data) 2;
     Status := status;
     Suggestions :=
       match suggestions with
       | [] => "None"
       | _ => Py.join "; " suggestions
       end |}.

Definition create_download_data (timestamp : Q) (cells : list (string * Cell))
    : list Row :=
  foldl (fun download_data kc => Py.append download_data (download_row timestamp kc))
        [] cells.

(** "Reset Data": both history buffers are emptied, the cells are kept. *)
Definition reset_data (s : Session) : Session :=
  {| cells_data := cells_data s; historical_data := []; data_points := [] |}.

End V1.

(** ** Variant 2: [Enhanced_bms.py] *)

Module V2.

Local Open Scope string_scope.
Local Open Scope Q_scope.

(** One entry of [st.session_state.cells_data]; the key ["type"] is added
    after [create_cell_data] has built the dict. *)
Record Cell := mkCell {
  voltage : Q;
  current : Q;
  temp : Q;
  capacity : Q;
  min_voltage : Q;
  max_voltage : Q;
  soc : Q;
  health : Q;
  status : string;
  type : option string
}.

(** [temp_draw], [soc_draw] and [health_draw] are the values of
    [random.uniform(25, 40)], [random.randint(20, 90)] and
    [random.randint(85, 100)]. *)
Definition create_cell_data
    (cell_type : string) (cell_id : nat) (temp_draw soc_draw health_draw : Q) : Cell :=
  let voltage := if String.eqb cell_type "lfp" then 3.2 else 3.6 in
  let min_voltage := if String.eqb cell_type "lfp" then 2.8 else 3.2 in
  let max_voltage := if String.eqb cell_type "lfp" then 3.6 else 4.0 in
  let current := 0.0 in
  let temp := Py.round temp_draw 1 in
  let capacity := Py.round (voltage * current) 2 in
  {| voltage := voltage;
     current := current;
     temp := temp;
     capacity := capacity;
     min_voltage := min_voltage;
     max_voltage := max_voltage;
     soc := soc_draw;
     health := health_draw;
     status := "IDLE";
     type := None |}.

Definition set_voltage (x : Q) (c : Cell) : Cell :=
  mkCell x (current c) (temp c) (capacity c) (min_voltage c) (max_voltage c)
    (soc c) (health c) (status c) (type c).
Definition set_current (x : Q) (c : Cell) : Cell :=
  mkCell (voltage c) x (temp c) (capacity c) (min_voltage c) (max_voltage c)
    (soc c) (health c) (status c) (type c).
Definition set_temp (x : Q) (c : Cell) : Cell :=
  mkCell (voltage c) (current c) x (capacity c) (min_voltage c) (max_voltage c)
    (soc c) (health c) (status c) (type c).
Definition set_capacity (x : Q) (c : Cell) : Cell :=
  mkCell (voltage c) (current c) (temp c) x (min_voltage c) (max_voltage c)
    (soc c) (health c) (status c) (type c).
Definition set_soc (x : Q) (c : Cell) : Cell :=
  mkCell (voltage c) (current c) (temp c) (capacity c) (min_voltage c) (max_voltage c)
    x (health c) (status c) (type c).
Definition set_status (x : string) (c : Cell) : Cell :=
  mkCell (voltage c) (current c) (temp c) (capacity c) (min_voltage c) (max_voltage c)
    (soc c) (health c) x (type c).
Definition set_type (x : string) (c : Cell) : Cell :=
  mkCell (voltage c) (current c) (temp c) (capacity c) (min_voltage c) (max_voltage c)
    (soc c) (health c) (status c) (Some x).

(** The cell the configuration loop stores for a new key. *)
Definition new_cell
    (cell_type : string) (cell_id : nat) (temp_draw soc_draw health_draw : Q) : Cell :=
  set_type cell_type (create_cell_data cell_type cell_id temp_draw soc_draw health_draw).

(** [temp_noise] is the value of [random.uniform(-0.5, 0.5)], drawn only
    when the current is not zero. *)
Definition simulate_battery_operation
    (cell_data : Cell) (task_type : string) (task_params : gmap string Q)
    (temp_noise : Q) : Cell :=
  let cell_data :=
    if String.eqb task_type "CC_CV" then
      let cell_data := set_current (Py.get task_params "current" 1.0) cell_data in
      let cell_data :=
        set_voltage (Py.min (voltage cell_data + 0.01) (max_voltage cell_data)) cell_data in
      let cell_data := set_soc (Py.min (soc cell_data + 0.5) 100) cell_data in
      set_status "CHARGING" cell_data
    else if String.eqb task_type "CC_CD" then
      let cell_data :=
        set_current (- Py.abs (Py.get task_params "current" 1.0)) cell_data in
      let cell_data :=
        set_voltage (Py.max (voltage cell_data - 0.01) (min_voltage cell_data)) cell_data in
      let cell_data := set_soc (Py.max (soc cell_data - 0.3) 0) cell_data in
      set_status "DISCHARGING" cell_data
    else
      let cell_data := set_current 0.0 cell_data in
      set_status "IDLE" cell_data in
  let cell_data :=
    if Py.abs (current cell_data) >? 0 then
      let cell_data := set_temp (temp cell_data + temp_noise) cell_data in
      set_temp (Py.max 20 (Py.min 50 (temp cell_data))) cell_data
    else cell_data in
  set_capacity (Py.round (voltage cell_data * Py.abs (current cell_data)) 2) cell_data.

(** An entry of [task_sequence]. *)
Record Task := mkTask {
  task_type : string;
  params : gmap string Q;
  completed : bool
}.

(** The values of the sidebar's task widgets. *)
Record Widgets := mkWidgets {
  new_task : string;
  cc_cv_current : Q;
  cc_cv_voltage : Q;
  cc_cv_time : Q;
  cc_cd_current : Q;
  cc_cd_voltage : Q;
  cc_cd_time : Q;
  idle_time : Q
}.

(** What the widgets guarantee about their values: the select box returns
    one of its options and every slider a value between its [min_value]
    and [max_value]. *)
Definition widgets_in_range (w : Widgets) : Prop :=
  (new_task w = "CC_CV" \/ new_task w = "CC_CD" \/ new_task w = "IDLE") /\
  (0.1 <= cc_cv_current w <= 5.0) /\
  (3.0 <= cc_cv_voltage w <= 4.2) /\
  (10 <= cc_cv_time w <= 300) /\
  (0.1 <= cc_cd_current w <= 5.0) /\
  (2.5 <= cc_cd_voltage w <= 3.5) /\
  (10 <= cc_cd_time w <= 300) /\
  (5 <= idle_time w <= 120).

Definition new_task_params (w : Widgets) : gmap string Q :=
  let new_task_type := new_task w in
  if String.eqb new_task_type "CC_CV" then
    <["time_seconds" := cc_cv_time w]>
    (<["cv_voltage" := cc_cv_voltage w]>
    (<["current" := cc_cv_current w]> ∅))
  else if String.eqb new_task_type "CC_CD" then
    <["time_seconds" := cc_cd_time w]>
    (<["voltage" := cc_cd_voltage w]>
    (<["current" := cc_cd_current w]> ∅))
  else
    <["time_seconds" := idle_time w]> ∅.

(** The handler of the "Add Task to Sequence" button. *)
Definition add_task
    (new_task_type : string) (new_task_params : gmap string Q)
    (task_sequence : list Task) : list Task :=
  let task_info :=
    {| task_type := new_task_type; params := new_task_params; completed := false |} in
  Py.append task_sequence task_info.

(** The button pressed with the widgets at [w]. *)
Definition press_add_task (w : Widgets) (task_sequence : list Task) : list Task :=
  add_task (new_task w) (new_task_params w) task_sequence.

(** The task has a duration, and a positive one. *)
Definition positive_duration (t : Task) : Prop :=
  exists d : Q, params t !! "time_seconds" = Some d /\ 0 < d.

(** The widgets as they are when the page is first shown, but for the
    task type. *)
Definition idle_widgets : Widgets :=
  mkWidgets "IDLE" 1.0 4.0 60 1.0 3.0 60 30.

(** An entry of [historical_data]. *)
Record HistRecord := mkHistRecord {
  h_timestamp : Q;
  h_cell : string;
  h_voltage : Q;
  h_current : Q;
  h_temperature : Q;
  h_soc : Q;
  h_capacity : Q;
  h_status : string
}.

Definition hist_record (timestamp : Q) (kc : string * Cell) : HistRecord :=
  {| h_timestamp := timestamp;
     h_cell := fst kc;
     h_voltage := voltage (snd kc);
     h_current := current (snd kc);
     h_temperature := temp (snd kc);
     h_soc := soc (snd kc);
     h_capacity := capacity (snd kc);
     h_status := status (snd kc) |}.

Record Session := mkSession {
  cells_data : list (string * Cell);
  task_sequence : list Task;
  current_task_step : nat;
  task_start_time : option Q;
  simulation_running : bool;
  historical_data : list HistRecord
}.

(** The readings of [datetime.now()] during one run of the script, in
    seconds: when the start time is initialised, when the elapsed time is
    computed, when the start time is reset, and the history timestamp. *)
Record Clock := mkClock {
  now_init : Q;
  now_elapsed : Q;
  now_reset : Q;
  now_stamp : Q
}.

(** "Get current task parameters": the task the cells are driven by. *)
Definition current_task (s : Session) : string * gmap string Q :=
  match task_sequence s with
  | [] => ("IDLE", <["time_seconds" := 30]> ∅)
  | _ =>
    if (current_task_step s <? length (task_sequence s))%nat then
      match task_sequence s !! current_task_step s with
      | Some t => (task_type t, params t)
      | None => ("IDLE", <["time_seconds" := 30]> ∅)
      end
    else ("IDLE", <["time_seconds" := 30]> ∅)
  end.

Definition complete (t : Task) : Task :=
  {| task_type := task_type t; params := params t; completed := true |}.

(** "Task sequence management" at the top of the live dashboard.  [None]
    stands for the exception Python raises when the step is not an index
    of the sequence or the task has no ["time_seconds"]. *)
Definition sequence_step (clk : Clock) (s : Session) : option Session :=
  match simulation_running s, task_sequence s with
  | true, _ :: _ =>
    let start :=
      match task_start_time s with
      | None => now_init clk
      | Some t => t
      end in
    task ← task_sequence s !! current_task_step s;
    let elapsed_time := now_elapsed clk - start in
    time_seconds ← params task !! "time_seconds";
    if elapsed_time >=? time_seconds then
      let tasks := <[current_task_step s := complete task]> (task_sequence s) in
      let step := S (current_task_step s) in
      if (length tasks <=? step)%nat then
        Some {| cells_data := cells_data s;
                task_sequence := tasks;
                current_task_step := 0;
                task_start_time := None;
                simulation_running := false;
                historical_data := historical_data s |}
      else
        Some {| cells_data := cells_data s;
                task_sequence := tasks;
                current_task_step := step;
                task_start_time := Some (now_reset clk);
                simulation_running := true;
                historical_data := historical_data s |}
    else
      Some {| cells_data := cells_data s;
              task_sequence := task_sequence s;
              current_task_step := current_task_step s;
              task_start_time := Some start;
              simulation_running := true;
              historical_data := historical_data s |}
  | _, _ => Some s
  end.

(** "Update simulation" and "Store historical data". *)
Definition update_simulation
    (task_type : string) (task_params : gmap string Q)
    (timestamp : Q) (rnd : string -> Q) (s : Session) : Session :=
  let cells :=
    map (fun kc =>
           (fst kc, simulate_battery_operation (snd kc) task_type task_params (rnd (fst kc))))
        (cells_data s) in
  let hist :=
    foldl (fun acc kc => Py.append acc (hist_record timestamp kc))
      (historical_data s) cells in
  {| cells_data := cells;
     task_sequence := task_sequence s;
     current_task_step := current_task_step s;
     task_start_time := task_start_time s;
     simulation_running := simulation_running s;
     historical_data := hist |}.

(** One run of the script with no button pressed: the current task is
    read first, then the sequence is advanced, then the cells are updated
    if the simulation is still running. *)
Definition rerun (clk : Clock) (rnd : string -> Q) (s : Session) : option Session :=
  let '(task_type, task_params) := current_task s in
  s ← sequence_step clk s;
  if simulation_running s
  then Some (update_simulation task_type task_params (now_stamp clk) rnd s)
  else Some s.

(** The script run again and again, one clock and one random source per
    run. *)
Fixpoint reruns (ticks : list (Clock * (string -> Q))) (s : Session) : option Session :=
  match ticks with
  | [] => Some s
  | (clk, rnd) :: rest => s ← rerun clk rnd s; reruns rest s
  end.

(** The states a cell goes through: created by the configuration loop,
    then updated by the simulation, whatever the tasks and the draws. *)
Inductive reachable : Cell -> Prop :=
| reachable_new (cell_type : string) (cell_id : nat) (temp_draw soc_draw health_draw : Q) :
    reachable (new_cell cell_type cell_id temp_draw soc_draw health_draw)
| reachable_tick (c : Cell) (task_type : string) (task_params : gmap string Q)
    (temp_noise : Q) :
    reachable c ->
    reachable (simulate_battery_operation c task_type task_params temp_noise).

(** A session with one LFP cell and no task, the simulation started; and
    [n] runs of the script, one second apart. *)
Definition idle_session : Session :=
  {| cells_data := [("cell_1", new_cell "lfp" 1 30 50 90)];
     task_sequence := [];
     current_task_step := 0;
     task_start_time := None;
     simulation_running := true;
     historical_data := [] |}.

Definition every_second (n : nat) : list (Clock * (string -> Q)) :=
  map (fun i => let t := inject_Z (Z.of_nat i) in (mkClock t t t t, fun _ => 0))
      (seq 0 n).

(** The sequence management alone, run at the given clocks. *)
Fixpoint sequence_steps (clks : list Clock) (s : Session) : option Session :=
  match clks with
  | [] => Some s
  | clk :: rest => s ← sequence_step clk s; sequence_steps rest s
  end.

(** *** The run of a sequence of three tasks of 10, 20 and 5 seconds *)

(** The task lasts [d] seconds. *)
Definition lasts (t : Task) (d : Q) : Prop :=
  exists x : Q, params t !! "time_seconds" = Some x /\ x == d.

Definition durations_10_20_5 (tasks : list Task) : Prop :=
  exists t1 t2 t3 : Task,
    tasks = [t1; t2; t3] /\ lasts t1 10 /\ lasts t2 20 /\ lasts t3 5.

Definition duration_at (k : nat) : Q :=
  match k with
  | 0%nat => 10
  | 1%nat => 20
  | _ => 5
  end.

(** The time the tasks before the [k]-th take together. *)
Definition duration_before (k : nat) : Q :=
  match k with
  | 0%nat => 0
  | 1%nat => 10
  | _ => 30
  end.

(** "Start" has just been pressed on a sequence that is not under way. *)
Definition started (s : Session) : Prop :=
  simulation_running s = true
  /\ current_task_step s = 0%nat
  /\ task_start_time s = None.

(** The sequence is at its [k]-th task, which started at [start]. *)
Definition running_at (s : Session) (k : nat) (start : option Q) : Prop :=
  simulation_running s = true
  /\ current_task_step s = k
  /\ task_start_time s = start
  /\ durations_10_20_5 (task_sequence s)
  /\ Forall (fun t => completed t = true) (take k (task_sequence s)).

(** The state called Completed: the simulation stopped by the sequencer,
    every task done, the step and the start time reset. *)
Definition sequence_completed (s : Session) : Prop :=
  simulation_running s = false
  /\ current_task_step s = 0%nat
  /\ task_start_time s = None
  /\ length (task_sequence s) = 3%nat
  /\ Forall (fun t => completed t = true) (task_sequence s).

(** The runs of the script follow one another by at most [delta] seconds:
    every reading of a run is taken at most [delta] after the elapsed-time
    reading [prev] of the run before, and the clock does not go back
    between the readings of a run. *)
Fixpoint paced (delta prev : Q) (clks : list Clock) : Prop :=
  match clks with
  | [] => True
  | clk :: rest =>
    now_elapsed clk <= now_reset clk
    /\ now_reset clk <= prev + delta
    /\ paced delta (now_elapsed clk) rest
  end.

(** The elapsed-time reading of the last run, [prev] when there is none. *)
Definition last_elapsed (prev : Q) (clks : list Clock) : Q :=
  List.last (map now_elapsed clks) prev.

(** What is known of the start time of the [k]-th task when the runs are
    paced by [delta] and the last elapsed-time reading is [e]. *)
Definition start_bound (t0 delta e : Q) (k : nat) (start : Q) : Prop :=
  start <= t0 + duration_before k + inject_Z (Z.of_nat k) * delta
  /\ e < start + duration_at k.

Definition on_schedule (t0 delta e : Q) (s : Session) : Prop :=
  sequence_completed s
  \/ exists (k : nat) (start : Q),
       (k < 3)%nat /\ running_at s k (Some start) /\ start_bound t0 delta e k start.

(** No task starts before the ones before it have run their time. *)
Definition not_ahead (t0 : Q) (s : Session) : Prop :=
  exists (k : nat) (start : Q),
    (k < 3)%nat /\ running_at s k (Some start) /\ t0 + duration_before k <= start.

(** The sequence CC_CV for 10 s, CC_CD for 20 s, IDLE for 5 s, as the
    widgets build it, and the session in which it has just been started. *)
Definition tasks_10_20_5 : list Task :=
  press_add_task (mkWidgets "IDLE" 1.0 4.0 60 1.0 3.0 60 5)
    (press_add_task (mkWidgets "CC_CD" 1.0 4.0 60 1.0 3.0 20 30)
       (press_add_task (mkWidgets "CC_CV" 1.0 4.0 10 1.0 3.0 60 30) [])).

Definition session_10_20_5 : Session :=
  {| cells_data := [("cell_1", new_cell "lfp" 1 30 50 90)];
     task_sequence := tasks_10_20_5;
     current_task_step := 0;
     task_start_time := None;
     simulation_running := true;
     historical_data := [] |}.

(** [n] runs of the script, [step] seconds apart, from time 0 on. *)
Definition clocks_every (step : Q) (n : nat) : list Clock :=
  map (fun i => let t := inject_Z (Z.of_nat i) * step in mkClock t t t t) (seq 0 n).

(** *** The buttons and the whole script *)

(** "Clear Sequence". *)
Definition clear_sequence (s : Session) : Session :=
  {| cells_data := cells_data s;
     task_sequence := [];
     current_task_step := 0;
     task_start_time := None;
     simulation_running := simulation_running s;
     historical_data := historical_data s |}.

Definition set_task_sequence (tasks : list Task) (s : Session) : Session :=
  {| cells_data := cells_data s;
     task_sequence := tasks;
     current_task_step := current_task_step s;
     task_start_time := task_start_time s;
     simulation_running := simulation_running s;
     historical_data := historical_data s |}.

Definition set_simulation_running (b : bool) (s : Session) : Session :=
  {| cells_data := cells_data s;
     task_sequence := task_sequence s;
     current_task_step := current_task_step s;
     task_start_time := task_start_time s;
     simulation_running := b;
     historical_data := historical_data s |}.

(** "Reset": the history is emptied and the simulation stopped. *)
Definition reset_simulation (s : Session) : Session :=
  {| cells_data := cells_data s;
     task_sequence := task_sequence s;
     current_task_step := current_task_step s;
     task_start_time := task_start_time s;
     simulation_running := false;
     historical_data := [] |}.

(** The button pressed, if any, in a run of the script. *)
Inductive Button :=
| NoButton | AddTaskButton | ClearButton | StartButton | StopButton | ResetButton.

(** One run of the script, the configuration of the cells apart, in the
    order of the file: the "Add Task" handler,
    the "Clear Sequence" handler, the choice of the current task, the
    Start / Stop / Reset handlers, the sequence management, the update of
    the cells with its history records. *)
Definition script
    (pressed : Button) (w : Widgets) (clk : Clock) (rnd : string -> Q) (s : Session)
    : option Session :=
  let s :=
    match pressed with
    | AddTaskButton =>
      set_task_sequence (add_task (new_task w) (new_task_params w) (task_sequence s)) s
    | _ => s
    end in
  let s := match pressed with ClearButton => clear_sequence s | _ => s end in
  let '(task_type, task_params) := current_task s in
  let s := match pressed with StartButton => set_simulation_running true s | _ => s end in
  let s := match pressed with StopButton => set_simulation_running false s | _ => s end in
  let s := match pressed with ResetButton => reset_simulation s | _ => s end in
  s ← sequence_step clk s;
  if simulation_running s
  then Some (update_simulation task_type task_params (now_stamp clk) rnd s)
  else Some s.

(** What the user and the clock do in one run of the script. *)
Record Run := mkRun {
  run_button : Button;
  run_widgets : Widgets;
  run_clock : Clock;
  run_random : string -> Q
}.

Fixpoint scripts (runs : list Run) (s : Session) : option Session :=
  match runs with
  | [] => Some s
  | r :: rest =>
    s ← script (run_button r) (run_widgets r) (run_clock r) (run_random r) s;
    scripts rest s
  end.

(** The state of the sequencer the script relies on: every task has a
    duration, and the step is an index of the sequence, or 0 when the
    sequence is empty. *)
Definition queue_ok (s : Session) : Prop :=
  Forall (fun t => is_Some (params t !! "time_seconds")) (task_sequence s)
  /\ ((current_task_step s < length (task_sequence s))%nat
      \/ (task_sequence s = [] /\ current_task_step s = 0%nat)).

(** The task is the one it was, but for a completion that may have been
    recorded. *)
Definition same_task (t t' : Task) : Prop :=
  task_type t' = task_type t
  /\ params t' = params t
  /\ (completed t = true -> completed t' = true).

(** The queue is the one it was, with tasks added at its end. *)
Definition extends (tasks tasks' : list Task) : Prop :=
  exists kept added : list Task,
    tasks' = (kept ++ added)%list /\ Forall2 same_task tasks kept.

(** Three runs of the script: a task is added, the simulation is started,
    and twelve seconds later the script runs again. *)
Definition three_runs : list Run :=
  [mkRun AddTaskButton idle_widgets (mkClock 0 0 0 0) (fun _ => 0);
   mkRun StartButton idle_widgets (mkClock 1 1 1 1) (fun _ => 0);
   mkRun NoButton idle_widgets (mkClock 12 12 12 12) (fun _ => 0)].

(** The session of a fresh page: nothing queued, nothing recorded, the
    simulation stopped. *)
Definition fresh_session (cells : list (string * Cell)) : Session :=
  {| cells_data := cells;
     task_sequence := [];
     current_task_step := 0;
     task_start_time := None;
     simulation_running := false;
     historical_data := [] |}.

(** What the task banner shows: the time left and the value of the progress
    bar, for a task of [time_seconds] that has run [elapsed_time]. *)
Definition remaining_time (time_seconds elapsed_time : Q) : Q :=
  Py.max 0 (time_seconds - elapsed_time).

Definition progress (time_seconds elapsed_time : Q) : Q :=
  Py.min 1.0 (elapsed_time / time_seconds).

(** The style of a cell's card. *)
Definition card_classes : gmap string string :=
  <["CHARGING" := "cell-card-charging"]>
  (<["DISCHARGING" := "cell-card-discharging"]>
  (<["IDLE" := "cell-card-idle"]> ∅)).

Definition card_class (cell_data : Cell) : string :=
  Py.get card_classes (status cell_data) "cell-card".

End V2.

(** ** The behaviour the specification describes, in its own words *)

Module Spec.

Local Open Scope string_scope.
Local Open Scope Q_scope.

Inductive Chemistry := LFP | NMC | NiMH | LeadAcid.

(** The chemistry a cell-type string names, whatever its letter case;
    [None] for an unknown chemistry. *)
Definition chemistry_of (cell_type : string) : option Chemistry :=
  let name := Py.lower cell_type in
  if String.eqb name "lfp" then Some LFP
  else if String.eqb name "nmc" then Some NMC
  else if String.eqb name "nimh" then Some NiMH
  else if String.eqb name "lead-acid" then Some LeadAcid
  else None.

(** Unknown chemistries default to NMC. *)
Definition or_nmc (c : option Chemistry) : Chemistry :=
  match c with Some c => c | None => NMC end.

(** The fixed table of [(min_v, max_v)]. *)
Definition bounds (c : Chemistry) : Q * Q :=
  match c with
  | LFP => (2.5, 3.65)
  | NMC => (3.0, 4.2)
  | NiMH => (1.0, 1.4)
  | LeadAcid => (1.8, 2.1)
  end.

(** The optimal voltage of a chemistry. *)
Definition optimal (c : Chemistry) : Q :=
  match c with
  | LFP => 3.3
  | NMC => 3.7
  | NiMH => 1.25
  | LeadAcid => 2.0
  end.

Definition clamp (lo hi x : Q) : Q := Qmax lo (Qmin hi x).

(** 4.1: linear interpolation between the bounds, clamped to [0,100]. *)
Definition estimate_soc (voltage : Q) (cell_type : string) : Q :=
  let '(min_v, max_v) := bounds (or_nmc (chemistry_of cell_type)) in
  clamp 0 100 ((voltage - min_v) / (max_v - min_v) * 100).

(** 4.3: the label, first match wins, descending. *)
Definition status_label (health : Q) : string :=
  if Qle_bool 95 health then "Excellent"
  else if Qle_bool 85 health then "Good"
  else if Qle_bool 70 health then "Normal"
  else if Qle_bool 50 health then "Warning"
  else if Qle_bool 30 health then "Critical"
  else "Danger".

(** 4.3: the four groups of suggestions, in the order of the enumeration. *)
Definition health_suggestions (health : Q) : list string :=
  if Qle_bool 85 health then []
  else if Qle_bool 70 health then ["Monitor regularly"]
  else if Qle_bool 50 health then ["Check cell parameters"]
  else if Qle_bool 30 health then ["Immediate attention required"]
  else ["Replace cell immediately"].

Definition temperature_suggestions (temperature : Q) : list string :=
  if Qle_bool temperature 45 then
    if Qle_bool 5 temperature then [] else ["Warm up the battery"]
  else ["Cool down the battery"].

Definition soc_suggestions (soc : Q) : list string :=
  if Qle_bool 15 soc then
    if Qle_bool soc 95 then [] else ["Avoid overcharging"]
  else ["Charge battery soon"].

Definition voltage_suggestions (voltage : Q) (cell_type : string) : list string :=
  if Qle_bool (Qabs (voltage - optimal (or_nmc (chemistry_of cell_type)))) 0.3
  then [] else ["Check voltage regulation"].

(** The place of a suggestion in the enumeration: health-based first, then
    temperature, then state of charge, then voltage deviation. *)
Definition suggestion_rank (s : string) : nat :=
  if String.eqb s "Monitor regularly" then 0
  else if String.eqb s "Check cell parameters" then 0
  else if String.eqb s "Immediate attention required" then 0
  else if String.eqb s "Replace cell immediately" then 0
  else if String.eqb s "Cool down the battery" then 1
  else if String.eqb s "Warm up the battery" then 1
  else if String.eqb s "Charge battery soon" then 2
  else if String.eqb s "Avoid overcharging" then 2
  else if String.eqb s "Check voltage regulation" then 3
  else 4.

End Spec.

(** ** Comparisons, [max] and [min] *)

Section Numbers.

Local Open Scope Q_scope.

Lemma ltb_true (x y : Q) : Py.ltb x y = true <-> x < y.
Proof.
  unfold Py.ltb. rewrite negb_true_iff, <- not_true_iff_false, Qle_bool_iff.
  split; [apply Qnot_le_lt | apply Qlt_not_le].
Qed.

Lemma ltb_false (x y : Q) : Py.ltb x y = false <-> y <= x.
Proof. unfold Py.ltb. rewrite negb_false_iff. apply Qle_bool_iff. Qed.

Lemma geb_true (x y : Q) : Py.geb x y = true <-> y <= x.
Proof. apply Qle_bool_iff. Qed.

Lemma geb_false (x y : Q) : Py.geb x y = false <-> x < y.
Proof.
  unfold Py.geb. rewrite <- not_true_iff_false, Qle_bool_iff.
  split; [apply Qnot_le_lt | apply Qlt_not_le].
Qed.

Lemma le_bool_false (x y : Q) : Qle_bool x y = false <-> y < x.
Proof. apply (geb_false y x). Qed.

End Numbers.

(** Splits on every comparison of the goal, innermost first, and records
  its outcome as an inequality. *)
Ltac no_test t :=
lazymatch t with
| context [Py.ltb _ _] => fail
| context [Py.geb _ _] => fail
| context [Qle_bool _ _] => fail
| _ => idtac
end.

Ltac py_cases :=
unfold Py.max, Py.min, Py.gtb in *;
repeat match goal with
| |- context [Py.ltb ?x ?y] =>
    no_test x; no_test y;
    let H := fresh "Hc" in
    destruct (Py.ltb x y) eqn:H;
    [apply ltb_true in H | apply ltb_false in H]
| |- context [Py.geb ?x ?y] =>
    no_test x; no_test y;
    let H := fresh "Hc" in
    destruct (Py.geb x y) eqn:H;
    [apply geb_true in H | apply geb_false in H]
| |- context [Qle_bool ?x ?y] =>
    no_test x; no_test y;
    let H := fresh "Hc" in
    destruct (Qle_bool x y) eqn:H;
    [apply Qle_bool_iff in H | apply le_bool_false in H]
end.

Section Numbers_clamp.

Local Open Scope Q_scope.

Lemma clamp_bounds (lo hi x : Q) :
  lo <= hi -> lo <= Py.max lo (Py.min hi x) <= hi.
Proof. intros. py_cases; lra. Qed.

Lemma clamp_mono (lo hi x y : Q) :
  x <= y -> Py.max lo (Py.min hi x) <= Py.max lo (Py.min hi y).
Proof. intros. py_cases; lra. Qed.

Lemma clamp_spec (lo hi x : Q) :
  Py.max lo (Py.min hi x) = Spec.clamp lo hi x.
Proof.
  unfold Spec.clamp, Qmax, Qmin, GenericMinMax.gmax, GenericMinMax.gmin.
  unfold Py.max, Py.min, Py.gtb, Py.ltb, Qle_bool, Qcompare, Qlt, Qle.
  destruct hi as [hn hd], x as [xn xd], lo as [ln ld]; cbn [Qnum Qden].
  destruct (Z.compare_spec (hn * Z.pos xd) (xn * Z.pos hd)) as [E|E|E];
    destruct (Z.leb_spec (hn * Z.pos xd) (xn * Z.pos hd)); try lia;
    cbn [negb Qnum Qden];
    match goal with
    | |- context [Z.leb ?a ?b] =>
        destruct (Z.compare_spec b a); destruct (Z.leb_spec a b); try lia
    end; reflexivity.
Qed.

End Numbers_clamp.

(** ** The chemistry tables *)

Section Tables.

Local Open Scope string_scope.
Local Open Scope Q_scope.

(** The dict lookup of the estimator is the specification's table. *)
Lemma voltage_ranges_get (cell_type : string) :
  Py.get V1.voltage_ranges (Py.lower cell_type) (3.0, 4.2)
  = Spec.bounds (Spec.or_nmc (Spec.chemistry_of cell_type)).
Proof.
  unfold Spec.chemistry_of, Py.get, V1.voltage_ranges.
  generalize (Py.lower cell_type) as k; intros k.
  repeat match goal with
  | |- context [String.eqb k ?name] =>
      destruct (String.eqb_spec k name) as [->|?];
      [ rewrite ?lookup_insert_eq; reflexivity
      | rewrite lookup_insert_ne by congruence ]
  end.
  rewrite lookup_empty. reflexivity.
Qed.

Lemma optimal_voltages_get (cell_type : string) :
  Py.get V1.optimal_voltages (Py.lower cell_type) 3.7
  = Spec.optimal (Spec.or_nmc (Spec.chemistry_of cell_type)).
Proof.
  unfold Spec.chemistry_of, Py.get, V1.optimal_voltages.
  generalize (Py.lower cell_type) as k; intros k.
  repeat match goal with
  | |- context [String.eqb k ?name] =>
      destruct (String.eqb_spec k name) as [->|?];
      [ rewrite ?lookup_insert_eq; reflexivity
      | rewrite lookup_insert_ne by congruence ]
  end.
  rewrite lookup_empty. reflexivity.
Qed.

(** Every range of the table has a positive width. *)
Lemma bounds_width (c : Spec.Chemistry) :
  fst (Spec.bounds c) < snd (Spec.bounds c).
Proof. destruct c; cbn; lra. Qed.

Lemma calculate_soc_unfold (voltage : Q) (cell_type : string) :
  V1.calculate_soc voltage cell_type
  = let b := Spec.bounds (Spec.or_nmc (Spec.chemistry_of cell_type)) in
    Py.max 0 (Py.min 100 ((voltage - fst b) / (snd b - fst b) * 100)).
Proof.
  unfold V1.calculate_soc. rewrite voltage_ranges_get.
  destruct (Spec.bounds _); reflexivity.
Qed.

(** Division by a positive width keeps the order. *)
Lemma interpolation_mono (lo hi v1 v2 : Q) :
  lo < hi -> v1 <= v2 ->
  (v1 - lo) / (hi - lo) * 100 <= (v2 - lo) / (hi - lo) * 100.
Proof.
  intros Hw Hv. apply Qmult_le_compat_r; [|lra].
  unfold Qdiv. apply Qmult_le_compat_r; [lra|].
  apply Qinv_le_0_compat. lra.
Qed.

End Tables.

(** ** The state-of-charge estimator *)

Section Soc.

Local Open Scope string_scope.
Local Open Scope Q_scope.

(** C1: for every voltage and every chemistry string, [calculate_soc]
    returns exactly the linear interpolation
    [(voltage - min_v) / (max_v - min_v) * 100] clamped to [0,100], with
    [(min_v, max_v)] taken from the table LFP (2.5,3.65), NMC (3.0,4.2),
    NiMH (1.0,1.4), Lead-Acid (1.8,2.1), and NMC's range for any unknown
    chemistry. *)
Theorem calculate_soc_is_clamped_interpolation (voltage : Q) (cell_type : string) :
  V1.calculate_soc voltage cell_type = Spec.estimate_soc voltage cell_type.
Proof.
  rewrite calculate_soc_unfold. unfold Spec.estimate_soc.
  destruct (Spec.bounds _) as [min_v max_v]; cbn [fst snd].
  apply clamp_spec.
Qed.

(** C2: for every chemistry, [calculate_soc] is monotonically
    non-decreasing in the voltage, and for every voltage, in range or not,
    its result lies in [0,100]. *)
Theorem calculate_soc_monotone_and_bounded (cell_type : string) :
  (forall v1 v2 : Q,
      v1 <= v2 -> V1.calculate_soc v1 cell_type <= V1.calculate_soc v2 cell_type)
  /\ (forall v : Q, 0 <= V1.calculate_soc v cell_type <= 100).
Proof.
  split.
  - intros v1 v2 Hv. rewrite !calculate_soc_unfold. cbv zeta.
    apply clamp_mono, interpolation_mono; [apply bounds_width | exact Hv].
  - intros v. rewrite calculate_soc_unfold. cbv zeta.
    apply clamp_bounds. lra.
Qed.

Lemma calculate_soc_monotone_and_bounded_witness :
  V1.calculate_soc 3.2 "LFP" <= V1.calculate_soc 3.4 "LFP"
  /\ 0 <= V1.calculate_soc 9 "Lead-Acid" <= 100.
Proof.
  split.
  - apply (proj1 (calculate_soc_monotone_and_bounded "LFP") 3.2 3.4). lra.
  - apply (proj2 (calculate_soc_monotone_and_bounded "Lead-Acid") 9).
Defined.

End Soc.

(** ** The health scorer and the status classifier *)

Section Health.

Local Open Scope string_scope.
Local Open Scope Q_scope.

(** C3: for every voltage, current, temperature, state of charge and
    chemistry, extreme or out of range as they may be, and for every noise
    draw (those of [-2,2] among them), [calculate_battery_health] returns a
    value in [0,100]. *)
Theorem calculate_battery_health_in_range
    (voltage current temp soc : Q) (cell_type : string) (noise : Q) :
  0 <= V1.calculate_battery_health voltage current temp soc cell_type noise <= 100.
Proof. unfold V1.calculate_battery_health. apply clamp_bounds. lra. Qed.

(** Numerically equal inputs take the same branch of every test. *)
Lemma le_bool_eq_l (x x' y : Q) : x' == x -> Qle_bool x' y = Qle_bool x y.
Proof. intros E. apply Qleb_comp; [exact E | reflexivity]. Qed.

Lemma le_bool_eq_r (x y y' : Q) : y' == y -> Qle_bool x y' = Qle_bool x y.
Proof. intros E. apply Qleb_comp; [reflexivity | exact E]. Qed.

Lemma status_deterministic
    (health temp voltage soc health' temp' voltage' soc' : Q) (cell_type : string) :
  health' == health -> temp' == temp -> voltage' == voltage -> soc' == soc ->
  V1.get_detailed_cell_status health' temp' voltage' soc' cell_type
  = V1.get_detailed_cell_status health temp voltage soc cell_type.
Proof.
  intros Hh Ht Hv Hs. unfold V1.get_detailed_cell_status.
  unfold Py.gtb, Py.ltb, Py.geb, Py.abs.
  rewrite !(le_bool_eq_r _ _ _ Hh).
  rewrite !(le_bool_eq_l _ _ _ Ht), !(le_bool_eq_r _ _ _ Ht).
  rewrite !(le_bool_eq_l _ _ _ Hs), !(le_bool_eq_r _ _ _ Hs).
  set (optimal_v := Py.get V1.optimal_voltages (Py.lower cell_type) 3.7).
  assert (Ha : Qabs (voltage' - optimal_v) == Qabs (voltage - optimal_v))
    by (rewrite Hv; reflexivity).
  rewrite (le_bool_eq_l _ _ _ Ha). reflexivity.
Qed.

Lemma status_refines_spec (health temp voltage soc : Q) (cell_type : string) :
  V1.get_detailed_cell_status health temp voltage soc cell_type
  = (Spec.status_label health,
     snd (fst (V1.get_detailed_cell_status health temp voltage soc cell_type)),
     (Spec.health_suggestions health ++ Spec.temperature_suggestions temp
      ++ Spec.soc_suggestions soc ++ Spec.voltage_suggestions voltage cell_type)%list).
Proof.
  unfold V1.get_detailed_cell_status, Spec.status_label, Spec.health_suggestions,
    Spec.temperature_suggestions, Spec.soc_suggestions, Spec.voltage_suggestions.
  rewrite optimal_voltages_get.
  unfold Py.gtb, Py.ltb, Py.geb, Py.abs, Py.append.
  py_cases; first [reflexivity | exfalso; lra].
Qed.

Lemma suggestions_ranked (health temp voltage soc : Q) (cell_type : string) :
  StronglySorted lt
    (map Spec.suggestion_rank
       (Spec.health_suggestions health ++ Spec.temperature_suggestions temp
        ++ Spec.soc_suggestions soc ++ Spec.voltage_suggestions voltage cell_type)%list).
Proof.
  unfold Spec.health_suggestions, Spec.temperature_suggestions,
    Spec.soc_suggestions, Spec.voltage_suggestions.
  repeat match goal with
  | |- context [Qle_bool ?x ?y] => destruct (Qle_bool x y)
  end; cbn; repeat constructor.
Qed.

(** C4: [get_detailed_cell_status] is deterministic: two calls with the
    same health, temperature, voltage, state of charge and chemistry give
    the same status label and the same suggestion list; and the suggestions
    always come in the order of the enumeration: the health-based one
    first, then temperature, then state of charge, then voltage
    deviation. *)
Theorem get_detailed_cell_status_deterministic_and_ordered
    (health temp voltage soc : Q) (cell_type : string) :
  (forall health' temp' voltage' soc' : Q,
      health' == health -> temp' == temp -> voltage' == voltage -> soc' == soc ->
      V1.get_detailed_cell_status health' temp' voltage' soc' cell_type
      = V1.get_detailed_cell_status health temp voltage soc cell_type)
  /\ fst (fst (V1.get_detailed_cell_status health temp voltage soc cell_type))
     = Spec.status_label health
  /\ snd (V1.get_detailed_cell_status health temp voltage soc cell_type)
     = (Spec.health_suggestions health ++ Spec.temperature_suggestions temp
        ++ Spec.soc_suggestions soc ++ Spec.voltage_suggestions voltage cell_type)%list
  /\ StronglySorted lt
       (map Spec.suggestion_rank
          (snd (V1.get_detailed_cell_status health temp voltage soc cell_type))).
Proof.
  split; [|rewrite status_refines_spec; cbn [fst snd]; split; [|split]].
  - intros. now apply status_deterministic.
  - reflexivity.
  - reflexivity.
  - apply suggestions_ranked.
Qed.

Lemma get_detailed_cell_status_deterministic_and_ordered_witness :
  V1.get_detailed_cell_status (120 # 2) (100 # 2) (84 # 20) (98 # 1) "NMC"
  = V1.get_detailed_cell_status 60 50 4.2 98 "NMC".
Proof.
  apply (proj1 (get_detailed_cell_status_deterministic_and_ordered 60 50 4.2 98 "NMC"));
    reflexivity.
Defined.

End Health.

(** ** The voltage after a tick *)

Section Voltage.

Local Open Scope string_scope.
Local Open Scope Q_scope.

Lemma tick_cell_voltage (d : V1.Draws) (c : V1.Cell) :
  0.1 <= V1.voltage (V1.tick_cell d c) <= 5.0.
Proof. unfold V1.tick_cell. cbn. apply clamp_bounds. lra. Qed.

(** The bounds a variant-2 cell carries are never written by the update. *)
Lemma simulate_keeps_bounds (c : V2.Cell) ty ps n :
  V2.min_voltage (V2.simulate_battery_operation c ty ps n) = V2.min_voltage c
  /\ V2.max_voltage (V2.simulate_battery_operation c ty ps n) = V2.max_voltage c.
Proof.
  unfold V2.simulate_battery_operation.
  destruct (String.eqb ty "CC_CV"); [|destruct (String.eqb ty "CC_CD")];
    cbn; match goal with |- context [Py.gtb ?x ?y] => destruct (Py.gtb x y) end;
    cbn; split; reflexivity.
Qed.

Lemma simulate_voltage_within (c : V2.Cell) ty ps n :
  V2.min_voltage c <= V2.voltage c <= V2.max_voltage c ->
  V2.min_voltage c <= V2.voltage (V2.simulate_battery_operation c ty ps n)
    <= V2.max_voltage c.
Proof.
  intros H. unfold V2.simulate_battery_operation.
  destruct (String.eqb ty "CC_CV"); [|destruct (String.eqb ty "CC_CD")];
    cbn; match goal with |- context [Py.gtb ?x ?y] => destruct (Py.gtb x y) end;
    cbn; py_cases; lra.
Qed.

Lemma new_cell_voltage_within cell_type cell_id t s h :
  let c := V2.new_cell cell_type cell_id t s h in
  V2.min_voltage c <= V2.voltage c <= V2.max_voltage c.
Proof.
  unfold V2.new_cell, V2.create_cell_data. cbn.
  destruct (String.eqb cell_type "lfp"); lra.
Qed.

Lemma reachable_voltage_within (c : V2.Cell) :
  V2.reachable c -> V2.min_voltage c <= V2.voltage c <= V2.max_voltage c.
Proof.
  induction 1 as [|c ty ps n _ IH].
  - apply new_cell_voltage_within.
  - destruct (simulate_keeps_bounds c ty ps n) as [-> ->].
    now apply simulate_voltage_within.
Qed.

(** C5, as stated, fails in variant 1: an LFP cell at 3.9 V is left at
    3.9 V by a tick, above the 3.65 V of its chemistry. *)
Lemma tick_cell_voltage_above_chemistry_max :
  let cell := V1.mkCell "LFP" 3.9 0 25 0 100 100 in
  let cell' := V1.tick_cell (V1.mkDraws 0 0 0 0) cell in
  let range := Py.get V1.voltage_ranges (Py.lower (V1.type cell')) (3.0, 4.2) in
  ~ (fst range <= V1.voltage cell' <= snd range).
Proof.
  cbv zeta. intros [_ H]. vm_compute in H. apply H. reflexivity.
Qed.

(** C5, amended: after a tick of variant 1 the voltage of every cell lies
    in the generic range [0.1, 5.0], whatever its chemistry; in variant 2
    a tick keeps the voltage between the cell's own [min_voltage] and
    [max_voltage] (which it leaves as they are) when it was there before,
    as it is for every cell from its creation on. *)
Theorem tick_voltage_bounds :
  (forall (d : V1.Draws) (c : V1.Cell),
      0.1 <= V1.voltage (V1.tick_cell d c) <= 5.0)
  /\ (forall (c : V2.Cell) task_type task_params temp_noise,
         let c' := V2.simulate_battery_operation c task_type task_params temp_noise in
         V2.min_voltage c <= V2.voltage c <= V2.max_voltage c ->
         V2.min_voltage c' <= V2.voltage c' <= V2.max_voltage c')
  /\ (forall c : V2.Cell,
         V2.reachable c -> V2.min_voltage c <= V2.voltage c <= V2.max_voltage c).
Proof.
  split; [|split].
  - apply tick_cell_voltage.
  - intros c ty ps n c' H. subst c'.
    destruct (simulate_keeps_bounds c ty ps n) as [-> ->].
    now apply simulate_voltage_within.
  - apply reachable_voltage_within.
Qed.

Lemma tick_voltage_bounds_witness :
  let c := V2.simulate_battery_operation
             (V2.new_cell "lfp" 1 30 50 90) "CC_CV" (<["current" := 2.0]> ∅) 0.25 in
  let c' := V2.simulate_battery_operation
              (V2.mkCell 3.6 0 30 0 2.8 3.6 99 90 "IDLE" (Some "lfp"))
              "CC_CV" (<["current" := 2.0]> ∅) 0.25 in
  (V2.min_voltage c <= V2.voltage c <= V2.max_voltage c)
  /\ (V2.min_voltage c' <= V2.voltage c' <= V2.max_voltage c').
Proof.
  cbv zeta. split.
  - apply (proj2 (proj2 tick_voltage_bounds)).
    apply V2.reachable_tick, V2.reachable_new.
  - apply (proj1 (proj2 tick_voltage_bounds)). cbn. lra.
Defined.

End Voltage.

(** ** Adding a task to the sequence *)

Section AddTask.

Local Open Scope string_scope.
Local Open Scope Q_scope.

(** The duration a task carries. *)
Lemma new_task_params_duration (w : V2.Widgets) :
  V2.widgets_in_range w ->
  exists d : Q,
    V2.new_task_params w !! "time_seconds" = Some d /\ 5 <= d <= 300.
Proof.
  intros (Hty & _ & _ & Hcv & _ & _ & Hcd & Hidle).
  unfold V2.new_task_params.
  destruct Hty as [-> | [-> | ->]]; cbn;
    rewrite lookup_insert_eq; eexists; (split; [reflexivity | lra]).
Qed.

Lemma press_add_task_app (w : V2.Widgets) (q : list V2.Task) :
  V2.press_add_task w q
  = (q ++ [V2.mkTask (V2.new_task w) (V2.new_task_params w) false])%list.
Proof. reflexivity. Qed.

Lemma presses_positive (ws : list V2.Widgets) (q : list V2.Task) :
  Forall V2.widgets_in_range ws ->
  Forall V2.positive_duration q ->
  Forall V2.positive_duration (foldl (fun q w => V2.press_add_task w q) q ws).
Proof.
  intros Hws. revert q. induction Hws as [|w ws Hw _ IH]; intros q Hq; cbn.
  - exact Hq.
  - apply IH. rewrite press_add_task_app. apply Forall_app. split; [exact Hq|].
    constructor; [|constructor].
    destruct (new_task_params_duration w Hw) as (d & Hd & Hr).
    exists d. cbn. split; [exact Hd | lra].
Qed.

(** C6, as stated, fails: the handler enqueues a task of duration 0 like
    any other; the queue grows and the task is in it. *)
Lemma add_task_accepts_zero_duration :
  let q := V2.add_task "IDLE" (<["time_seconds" := 0]> ∅) [] in
  length q <> length (@nil V2.Task)
  /\ exists t : V2.Task,
       q !! 0%nat = Some t /\ V2.params t !! "time_seconds" = Some 0.
Proof.
  cbv zeta. split; [discriminate|].
  eexists. split; [reflexivity|]. cbn. apply lookup_insert_eq.
Qed.

(** C6, amended: the handler of "Add Task to Sequence" validates nothing
    and reports no error: it always appends the new task, not completed, at
    the end of the queue, which grows by one.  The durations come from
    sliders bounded by [10,300] (CC_CV, CC_CD) and [5,120] (IDLE), so every
    task that enters the queue through the widgets has a duration of at
    least 5 seconds, and none has a duration <= 0. *)
Theorem press_add_task_appends_positive_duration :
  (forall (w : V2.Widgets) (q : list V2.Task),
      V2.widgets_in_range w ->
      exists t : V2.Task,
        V2.press_add_task w q = (q ++ [t])%list
        /\ length (V2.press_add_task w q) = S (length q)
        /\ V2.task_type t = V2.new_task w
        /\ V2.completed t = false
        /\ exists d : Q, V2.params t !! "time_seconds" = Some d /\ 5 <= d <= 300)
  /\ (forall ws : list V2.Widgets,
         Forall V2.widgets_in_range ws ->
         Forall V2.positive_duration (foldl (fun q w => V2.press_add_task w q) [] ws)).
Proof.
  split.
  - intros w q Hw. eexists. split; [apply press_add_task_app|].
    split; [rewrite press_add_task_app, length_app; cbn; lia|].
    split; [reflexivity|]. split; [reflexivity|].
    cbn. now apply new_task_params_duration.
  - intros ws Hws. apply presses_positive; [exact Hws | constructor].
Qed.

Lemma idle_widgets_in_range : V2.widgets_in_range V2.idle_widgets.
Proof.
  unfold V2.widgets_in_range, V2.idle_widgets; cbn.
  repeat split; try lra. right; right; reflexivity.
Defined.

Lemma press_add_task_appends_positive_duration_witness :
  (exists t : V2.Task,
      V2.press_add_task V2.idle_widgets [] = ([] ++ [t])%list
      /\ length (V2.press_add_task V2.idle_widgets []) = 1%nat
      /\ V2.task_type t = "IDLE"
      /\ V2.completed t = false
      /\ exists d : Q, V2.params t !! "time_seconds" = Some d /\ 5 <= d <= 300)
  /\ Forall V2.positive_duration
       (foldl (fun q w => V2.press_add_task w q) [] [V2.idle_widgets; V2.idle_widgets]).
Proof.
  split.
  - apply (proj1 press_add_task_appends_positive_duration V2.idle_widgets []).
    apply idle_widgets_in_range.
  - apply (proj2 press_add_task_appends_positive_duration [V2.idle_widgets; V2.idle_widgets]).
    repeat constructor; apply idle_widgets_in_range.
Defined.

End AddTask.

(** ** What the variant-2 update leaves alone *)

Section Frame.

(** C10: one application of [simulate_battery_operation] never changes the
    cell's health nor its [min_voltage] and [max_voltage], for every task
    kind (CC_CV, CC_CD, IDLE or any other string, treated as IDLE) and
    every starting cell: only current, voltage, soc, status, temp and
    capacity can change. *)
Theorem simulate_battery_operation_frame
    (c : V2.Cell) (task_type : string) (task_params : gmap string Q) (temp_noise : Q) :
  let c' := V2.simulate_battery_operation c task_type task_params temp_noise in
  V2.health c' = V2.health c
  /\ V2.min_voltage c' = V2.min_voltage c
  /\ V2.max_voltage c' = V2.max_voltage c
  /\ V2.type c' = V2.type c.
Proof.
  unfold V2.simulate_battery_operation.
  destruct (String.eqb task_type "CC_CV"); [|destruct (String.eqb task_type "CC_CD")];
    cbn; match goal with |- context [Py.gtb ?x ?y] => destruct (Py.gtb x y) end;
    cbn; repeat split; reflexivity.
Qed.

End Frame.

(** ** The capacity *)

Section Capacity.

Local Open Scope string_scope.
Local Open Scope Q_scope.

Lemma round_half_even_comp (x y : Q) :
  x == y -> Py.round_half_even x = Py.round_half_even y.
Proof.
  intros E. unfold Py.round_half_even.
  rewrite (Qfloor_comp _ _ E).
  assert (E' : x - inject_Z (Qfloor y) == y - inject_Z (Qfloor y))
    by (rewrite E; reflexivity).
  rewrite (Qcompare_comp _ _ E' (1 # 2) (1 # 2) (Qeq_refl _)).
  reflexivity.
Qed.

(** Rounding sees the value of its argument only. *)
Lemma round_comp (x y : Q) (ndigits : nat) :
  x == y -> Py.round x ndigits = Py.round y ndigits.
Proof.
  intros E. unfold Py.round. f_equal.
  apply round_half_even_comp. rewrite E. reflexivity.
Qed.







End Capacity.

(** ** The history buffers *)

Section History.

Context {A : Type}.

Lemma keep_last_last_items (cap : nat) (h : list A) :
  V1.keep_last cap h = Py.last_items cap h.
Proof.
  unfold V1.keep_last, Py.last_items.
  destruct (Nat.ltb_spec cap (length h)) as [H|H]; [reflexivity|].
  replace (length h - cap) with 0 by lia. reflexivity.
Qed.

Lemma last_items_length (n : nat) (l : list A) :
  length (Py.last_items n l) = Nat.min n (length l).
Proof. unfold Py.last_items. rewrite length_drop. lia. Qed.

Lemma last_items_short (n : nat) (l : list A) :
  length l <= n -> Py.last_items n l = l.
Proof.
  intros H. unfold Py.last_items.
  replace (length l - n) with 0 by lia. reflexivity.
Qed.

(** Trimming after every append keeps what trimming once at the end
    keeps. *)
Lemma last_items_app (n : nat) (a b : list A) :
  Py.last_items n (Py.last_items n a ++ b) = Py.last_items n (a ++ b).
Proof.
  destruct (Nat.le_gt_cases (length a) n) as [H|H].
  - now rewrite (last_items_short n a H).
  - unfold Py.last_items at 1 3. rewrite !length_app, last_items_length.
    unfold Py.last_items.
    replace (Nat.min n (length a) + length b - n) with (length b) by lia.
    replace (length a + length b - n) with ((length a - n) + length b) by lia.
    rewrite <- (drop_drop (a ++ b)).
    rewrite (drop_app_le a b (length a - n)) by lia. reflexivity.
Qed.

Lemma foldl_append {B : Type} (f : B -> A) (h : list A) (xs : list B) :
  foldl (fun acc x => Py.append acc (f x)) h xs = h ++ map f xs.
Proof.
  revert h. induction xs as [|x xs IH]; intros h; cbn.
  - now rewrite app_nil_r.
  - rewrite IH. unfold Py.append. now rewrite <- app_assoc.
Qed.

End History.

Section History_variants.

Lemma simulation_tick_history (t : Q) (rnd : string -> V1.Draws) (s : V1.Session) :
  V1.historical_data (V1.simulation_tick t rnd s)
  = Py.last_items 100 (V1.historical_data s ++ [V1.snapshot t (V1.cells_data s)])
  /\ V1.data_points (V1.simulation_tick t rnd s)
     = Py.last_items 500
         (V1.data_points s ++ map (V1.data_point t) (V1.cells_data s)).
Proof.
  unfold V1.simulation_tick; cbn [V1.historical_data V1.data_points].
  rewrite !keep_last_last_items, foldl_append. split; reflexivity.
Qed.

Lemma simulation_history (ticks : list (Q * (string -> V1.Draws))) (s : V1.Session) :
  length (V1.historical_data s) <= 100 ->
  length (V1.data_points s) <= 500 ->
  V1.historical_data (V1.simulation ticks s)
  = Py.last_items 100 (V1.historical_data s ++ V1.appended_snapshots ticks s)
  /\ V1.data_points (V1.simulation ticks s)
     = Py.last_items 500 (V1.data_points s ++ V1.appended_points ticks s).
Proof.
  revert s. induction ticks as [|[t rnd] ticks IH]; intros s Hh Hd; cbn.
  - rewrite !app_nil_r, !last_items_short by assumption. split; reflexivity.
  - destruct (simulation_tick_history t rnd s) as [Eh Ed].
    destruct (IH (V1.simulation_tick t rnd s)) as [-> ->].
    + rewrite Eh, last_items_length. lia.
    + rewrite Ed, last_items_length. lia.
    + rewrite Eh, Ed, !last_items_app, <- !app_assoc. split; reflexivity.
Qed.

Lemma appended_snapshots_length ticks (s : V1.Session) :
  length (V1.appended_snapshots ticks s) = length ticks.
Proof.
  revert s. induction ticks as [|[t rnd] ticks IH]; intros s; cbn; [|rewrite IH]; reflexivity.
Qed.

Lemma update_simulation_history ty ps t rnd (s : V2.Session) :
  V2.historical_data (V2.update_simulation ty ps t rnd s)
  = V2.historical_data s
    ++ map (V2.hist_record t) (V2.cells_data (V2.update_simulation ty ps t rnd s)).
Proof.
  unfold V2.update_simulation; cbn [V2.historical_data V2.cells_data].
  apply foldl_append.
Qed.

End History_variants.

Section History_claim.

(** C8, as stated, fails in variant 2: with one cell, 501 runs of the
    script leave 501 records in [historical_data]; nothing is evicted. *)
Lemma enhanced_history_exceeds_cap :
  match V2.reruns (V2.every_second 501) V2.idle_session with
  | Some s => length (V2.historical_data s) = 501
  | None => False
  end.
Proof. vm_compute. reflexivity. Qed.

(** C8, amended: in variant 1 the history buffers are bounded: after any
    number of ticks the aggregate buffer holds at most 100 snapshots and
    the per-cell buffer at most 500 data points, and they hold exactly the
    most recent entries appended, in the order of their appending (150
    ticks from an empty history leave exactly the last 100 snapshots).  In
    variant 2 [historical_data] has no cap: an update appends one record
    per cell after the records already there and evicts nothing. *)
Theorem history_buffers_bounded :
  (forall (ticks : list (Q * (string -> V1.Draws))) (s : V1.Session),
      length (V1.historical_data s) <= 100 ->
      length (V1.data_points s) <= 500 ->
      let s' := V1.simulation ticks s in
      length (V1.historical_data s') <= 100
      /\ length (V1.data_points s') <= 500
      /\ V1.historical_data s'
         = Py.last_items 100 (V1.historical_data s ++ V1.appended_snapshots ticks s)
      /\ V1.data_points s'
         = Py.last_items 500 (V1.data_points s ++ V1.appended_points ticks s))
  /\ (forall (ticks : list (Q * (string -> V1.Draws))) (s : V1.Session),
         V1.historical_data s = [] ->
         V1.data_points s = [] ->
         length ticks = 150 ->
         length (V1.historical_data (V1.simulation ticks s)) = 100
         /\ V1.historical_data (V1.simulation ticks s)
            = drop 50 (V1.appended_snapshots ticks s))
  /\ (forall task_type task_params timestamp rnd (s : V2.Session),
         let s' := V2.update_simulation task_type task_params timestamp rnd s in
         V2.historical_data s'
         = V2.historical_data s ++ map (V2.hist_record timestamp) (V2.cells_data s')
         /\ length (V2.historical_data s')
            = length (V2.historical_data s) + length (V2.cells_data s)).
Proof.
  split; [|split].
  - intros ticks s Hh Hd s'. subst s'.
    destruct (simulation_history ticks s Hh Hd) as [Eh Ed].
    rewrite Eh, Ed, !last_items_length. repeat split; lia.
  - intros ticks s Hh Hd Hn.
    destruct (simulation_history ticks s) as [Eh _];
      [rewrite Hh; cbn; lia | rewrite Hd; cbn; lia |].
    rewrite Eh, Hh, last_items_length. cbn [app].
    unfold Py.last_items. rewrite appended_snapshots_length, Hn.
    split; reflexivity.
  - intros ty ps t rnd s s'. subst s'. split.
    + apply update_simulation_history.
    + rewrite update_simulation_history, length_app, length_map.
      unfold V2.update_simulation; cbn [V2.cells_data]. now rewrite length_map.
Qed.

Lemma history_buffers_bounded_witness :
  let tick := (0%Q, fun _ : string => V1.mkDraws 0 0 0 0) in
  let s := V1.mkSession [("cell_1"%string, V1.mkCell "NMC" 3.7 0 25 0 50 90)] [] [] in
  length (V1.historical_data (V1.simulation [tick; tick] s)) <= 100
  /\ length (V1.historical_data (V1.simulation (replicate 150 tick) s)) = 100.
Proof.
  cbv zeta. split.
  - apply (proj1 history_buffers_bounded); cbn; lia.
  - apply (proj1 (proj2 history_buffers_bounded)); reflexivity.
Defined.

End History_claim.

(** ** The task sequencer *)

Section Sequencer.

Local Open Scope string_scope.
Local Open Scope Q_scope.

(** A sequence that is not running is left alone. *)
Lemma sequence_step_stopped (clk : V2.Clock) (s : V2.Session) :
  V2.simulation_running s = false -> V2.sequence_step clk s = Some s.
Proof. intros H. unfold V2.sequence_step. rewrite H. reflexivity. Qed.

Lemma complete_lasts (t : V2.Task) (d : Q) : V2.lasts t d -> V2.lasts (V2.complete t) d.
Proof. intros H. exact H. Qed.

(** The three outcomes of a step on a running sequence: the current task
    goes on, it ends and the next one starts, or the last one ends. *)
Lemma sequence_step_cases (clk : V2.Clock) (s : V2.Session) (k : nat) (so : option Q) :
  (k < 3)%nat ->
  V2.running_at s k so ->
  let start := match so with Some t => t | None => V2.now_init clk end in
  exists s' : V2.Session,
    V2.sequence_step clk s = Some s'
    /\ ((V2.now_elapsed clk - start < V2.duration_at k
         /\ V2.running_at s' k (Some start))
        \/ (V2.duration_at k <= V2.now_elapsed clk - start
            /\ (k < 2)%nat
            /\ V2.running_at s' (S k) (Some (V2.now_reset clk)))
        \/ (V2.duration_at k <= V2.now_elapsed clk - start
            /\ k = 2%nat
            /\ V2.sequence_completed s')).
Proof.
  intros Hk (Hrun & Hstep & Hstart & Hd & Hdone) start.
  destruct s as [cells tasks step start_time running hist].
  cbn in Hrun, Hstep, Hstart, Hd, Hdone. subst running step start_time.
  destruct Hd as (t1 & t2 & t3 & -> & (x1 & Hp1 & Hx1) & (x2 & Hp2 & Hx2) & (x3 & Hp3 & Hx3)).
  unfold V2.sequence_step;
    cbn [V2.simulation_running V2.task_sequence V2.current_task_step
         V2.task_start_time V2.cells_data V2.historical_data].
  fold start.
  destruct k as [|[|[|k]]]; [| | |lia]; cbn [lookup list_lookup mbind option_bind];
    rewrite ?Hp1, ?Hp2, ?Hp3; cbn [mbind option_bind];
    (destruct (Py.geb (V2.now_elapsed clk - start) _) eqn:Hc;
     [apply geb_true in Hc | apply geb_false in Hc]);
    cbn; eexists; (split; [reflexivity|]).
  all: unfold V2.running_at, V2.sequence_completed, V2.durations_10_20_5, V2.lasts;
    cbn [V2.simulation_running V2.task_sequence V2.current_task_step
         V2.task_start_time V2.duration_at].
  all: cbn in Hdone.
  all: assert (Hshape : forall a b c : V2.Task,
         V2.params a = V2.params t1 -> V2.params b = V2.params t2 ->
         V2.params c = V2.params t3 ->
         exists u1 u2 u3 : V2.Task,
           [a; b; c] = [u1; u2; u3]
           /\ (exists x : Q, V2.params u1 !! "time_seconds" = Some x /\ x == 10)
           /\ (exists x : Q, V2.params u2 !! "time_seconds" = Some x /\ x == 20)
           /\ (exists x : Q, V2.params u3 !! "time_seconds" = Some x /\ x == 5))
      by (intros a b c Ea Eb Ec; exists a, b, c; rewrite Ea, Eb, Ec; eauto 10).
  - right; left. split; [lra|]. split; [lia|].
    repeat split; [now apply Hshape|]. repeat constructor.
  - left. split; [lra|]. repeat split; [now apply Hshape | assumption].
  - right; left. split; [lra|]. split; [lia|].
    repeat split; [now apply Hshape|].
    inversion Hdone; subst. repeat constructor; assumption.
  - left. split; [lra|]. repeat split; [now apply Hshape | assumption].
  - right; right. split; [lra|]. split; [reflexivity|].
    repeat split.
    inversion Hdone as [|? ? ? Hdone']; subst. inversion Hdone'; subst.
    repeat constructor; assumption.
  - left. split; [lra|]. repeat split; [now apply Hshape | assumption].
Qed.

Lemma last_elapsed_cons (prev : Q) (clk : V2.Clock) (clks : list V2.Clock) :
  V2.last_elapsed prev (clk :: clks) = V2.last_elapsed (V2.now_elapsed clk) clks.
Proof.
  unfold V2.last_elapsed. cbn [map].
  generalize (V2.now_elapsed clk) as a. revert prev.
  generalize (map V2.now_elapsed clks) as l.
  induction l as [|b l IH]; intros prev a; [reflexivity|].
  change (List.last (a :: b :: l) prev) with (List.last (b :: l) prev).
  now rewrite !IH.
Qed.

Ltac schedule_arith :=
  unfold V2.start_bound, V2.duration_at, V2.duration_before in *;
  change (inject_Z (Z.of_nat 0)) with 0 in *;
  change (inject_Z (Z.of_nat 1)) with 1 in *;
  change (inject_Z (Z.of_nat 2)) with 2 in *;
  repeat match goal with H : _ /\ _ |- _ => destruct H end;
  try split.

(** A step of a paced run keeps the sequence on schedule. *)
Lemma step_on_schedule
    (t0 delta e : Q) (clk : V2.Clock) (s : V2.Session) (k : nat) (so : option Q) :
  0 <= delta ->
  (k < 3)%nat ->
  V2.running_at s k so ->
  V2.start_bound t0 delta e k
    (match so with Some t => t | None => V2.now_init clk end) ->
  V2.now_elapsed clk <= V2.now_reset clk ->
  V2.now_reset clk <= e + delta ->
  exists s' : V2.Session,
    V2.sequence_step clk s = Some s'
    /\ V2.on_schedule t0 delta (V2.now_elapsed clk) s'.
Proof.
  intros Hdelta Hk Hs Hb Her Hre.
  destruct (sequence_step_cases clk s k so Hk Hs)
    as (s' & Es & [(Hlt & Hs') | [(Hge & Hk2 & Hs') | (Hge & Hk2 & Hs')]]);
    exists s'; (split; [exact Es|]).
  - right. eexists k, _. split; [exact Hk|]. split; [exact Hs'|].
    destruct Hb as [Hb1 Hb2]. split; [exact Hb1 | lra].
  - right. exists (S k), (V2.now_reset clk). split; [lia|]. split; [exact Hs'|].
    destruct k as [|[|k]]; [| |lia]; schedule_arith; lra.
  - left. exact Hs'.
Qed.

(** A paced run stays on schedule and never fails. *)
Lemma run_on_schedule (t0 delta : Q) (clks : list V2.Clock) :
  0 <= delta ->
  forall (s : V2.Session) (e : Q),
    V2.on_schedule t0 delta e s ->
    V2.paced delta e clks ->
    exists s' : V2.Session,
      V2.sequence_steps clks s = Some s'
      /\ V2.on_schedule t0 delta (V2.last_elapsed e clks) s'.
Proof.
  intros Hdelta. induction clks as [|clk clks IH]; intros s e Hs Hp.
  - exists s. split; [reflexivity | exact Hs].
  - destruct Hp as (Her & Hre & Hp). rewrite last_elapsed_cons. cbn [V2.sequence_steps].
    destruct Hs as [Hs | (k & start & Hk & Hs & Hb)].
    + rewrite (sequence_step_stopped clk s) by apply Hs. cbn.
      apply IH; [left; exact Hs | exact Hp].
    + destruct (step_on_schedule t0 delta e clk s k (Some start))
        as (s1 & -> & Hs1); try assumption.
      cbn. apply IH; assumption.
Qed.

(** On schedule and late enough: the sequence is completed. *)
Lemma on_schedule_late (t0 delta e : Q) (s : V2.Session) :
  0 <= delta ->
  V2.on_schedule t0 delta e s ->
  t0 + 35 + 2 * delta <= e ->
  V2.sequence_completed s.
Proof.
  intros Hdelta [Hs | (k & start & Hk & _ & Hb)] He; [exact Hs|].
  exfalso. destruct k as [|[|[|k]]]; [| | |lia]; schedule_arith; lra.
Qed.

(** A step taken before 35 seconds have elapsed does not end the
    sequence, and no task starts ahead of time. *)
Lemma step_not_ahead
    (t0 : Q) (clk : V2.Clock) (s : V2.Session) (k : nat) (so : option Q) :
  (k < 3)%nat ->
  V2.running_at s k so ->
  t0 + V2.duration_before k <= (match so with Some t => t | None => V2.now_init clk end) ->
  V2.now_elapsed clk <= V2.now_reset clk ->
  V2.now_elapsed clk - t0 < 35 ->
  exists s' : V2.Session,
    V2.sequence_step clk s = Some s' /\ V2.not_ahead t0 s'.
Proof.
  intros Hk Hs Hb Her He.
  destruct (sequence_step_cases clk s k so Hk Hs)
    as (s' & Es & [(Hlt & Hs') | [(Hge & Hk2 & Hs') | (Hge & Hk2 & Hs')]]).
  - exists s'. split; [exact Es|]. eexists k, _. eauto.
  - exists s'. split; [exact Es|].
    exists (S k), (V2.now_reset clk). split; [lia|]. split; [exact Hs'|].
    destruct k as [|[|k]]; [| |lia]; schedule_arith; lra.
  - exfalso. subst k. schedule_arith. lra.
Qed.

Lemma run_not_ahead (t0 : Q) (clks : list V2.Clock) :
  Forall (fun clk => V2.now_elapsed clk <= V2.now_reset clk
                     /\ V2.now_elapsed clk - t0 < 35) clks ->
  forall s : V2.Session,
    V2.not_ahead t0 s ->
    exists s' : V2.Session,
      V2.sequence_steps clks s = Some s' /\ V2.not_ahead t0 s'.
Proof.
  induction 1 as [|clk clks [Her He] _ IH]; intros s Hs.
  - exists s. split; [reflexivity | exact Hs].
  - destruct Hs as (k & start & Hk & Hs & Hb). cbn [V2.sequence_steps].
    destruct (step_not_ahead t0 clk s k (Some start)) as (s1 & -> & Hs1);
      try assumption.
    cbn. apply IH. exact Hs1.
Qed.

Lemma started_running_at (s : V2.Session) :
  V2.started s -> V2.durations_10_20_5 (V2.task_sequence s) ->
  V2.running_at s 0 None.
Proof.
  intros (Hr & Hk & Hst) Hd. repeat split; try assumption. constructor.
Qed.

Lemma tasks_10_20_5_durations : V2.durations_10_20_5 V2.tasks_10_20_5.
Proof.
  unfold V2.tasks_10_20_5, V2.press_add_task, V2.add_task, V2.new_task_params.
  cbn. do 3 eexists. split; [reflexivity|].
  repeat split; eexists; (split; [cbn; apply lookup_insert_eq | reflexivity]).
Defined.

Lemma session_10_20_5_started : V2.started V2.session_10_20_5.
Proof. repeat split. Defined.

(** With runs exactly one second apart the sequence is completed at the
    36th run, 35 seconds after the first, and not at the one before. *)
Example sequence_every_second :
  (match V2.sequence_steps (V2.clocks_every 1 35) V2.session_10_20_5 with
   | Some s => V2.simulation_running s = true
   | None => False
   end)
  /\ (match V2.sequence_steps (V2.clocks_every 1 36) V2.session_10_20_5 with
      | Some s =>
        V2.simulation_running s = false
        /\ V2.current_task_step s = 0%nat
        /\ map V2.completed (V2.task_sequence s) = [true; true; true]
      | None => False
      end).
Proof. vm_compute. repeat split. Qed.

(** C7, as stated, fails: with runs of the script 1.1 seconds apart, the
    33rd run reads a total elapsed time of 35.2 seconds, yet the sequence
    of 10, 20 and 5 seconds is still at its third task, which started at
    31.9 seconds. *)
Lemma sequence_not_completed_after_35_seconds :
  let clks := V2.clocks_every 1.1 33 in
  V2.durations_10_20_5 (V2.task_sequence V2.session_10_20_5)
  /\ 35 <= V2.last_elapsed 0 clks - 0
  /\ match V2.sequence_steps clks V2.session_10_20_5 with
     | Some s =>
       V2.simulation_running s = true
       /\ V2.current_task_step s = 2%nat
       /\ map V2.completed (V2.task_sequence s) = [true; true; false]
     | None => False
     end.
Proof.
  cbv zeta. split; [exact tasks_10_20_5_durations|]. split.
  - vm_compute. discriminate.
  - vm_compute. repeat split.
Qed.

(** C7, amended: for a queue of exactly 3 tasks with durations 10, 20 and
    5 seconds, started afresh, the per-tick step measures each task from
    the run that ended the task before.  When every run of the script
    takes its readings at most [delta] seconds after the run before, the
    runs up to one that reads a total elapsed time >= 35 + 2*delta seconds
    reach the Completed state: [simulation_running] is false, all three
    tasks have [completed = true], the step index is reset to 0 and the
    start time cleared.  As long as the total elapsed time read is below
    35 seconds the sequence is still running.  No run fails. *)
Theorem sequence_10_20_5_completion
    (delta : Q) (s : V2.Session) (clk : V2.Clock) (clks : list V2.Clock) :
  V2.started s ->
  V2.durations_10_20_5 (V2.task_sequence s) ->
  let t0 := V2.now_init clk in
  (0 <= delta ->
   V2.paced delta t0 (clk :: clks) ->
   35 + 2 * delta <= V2.last_elapsed t0 (clk :: clks) - t0 ->
   exists s' : V2.Session,
     V2.sequence_steps (clk :: clks) s = Some s' /\ V2.sequence_completed s')
  /\ (Forall (fun c => V2.now_elapsed c <= V2.now_reset c
                       /\ V2.now_elapsed c - t0 < 35) (clk :: clks) ->
      exists s' : V2.Session,
        V2.sequence_steps (clk :: clks) s = Some s'
        /\ V2.simulation_running s' = true).
Proof.
  intros Hst Hd t0. pose proof (started_running_at s Hst Hd) as Hs. split.
  - intros Hdelta (Her & Hre & Hp) Hlate. rewrite last_elapsed_cons in Hlate.
    cbn [V2.sequence_steps].
    destruct (step_on_schedule t0 delta t0 clk s 0 None) as (s1 & -> & Hs1);
      try assumption; [lia | schedule_arith; fold t0; lra |].
    cbn. destruct (run_on_schedule t0 delta clks Hdelta s1 _ Hs1 Hp) as (s' & Es & Hs').
    exists s'. split; [exact Es|].
    apply (on_schedule_late t0 delta _ s' Hdelta Hs'). lra.
  - intros Hall. inversion Hall as [|? ? [Her He] Hrest]; subst.
    cbn [V2.sequence_steps].
    destruct (step_not_ahead t0 clk s 0 None) as (s1 & -> & Hs1);
      try assumption; [lia | schedule_arith; fold t0; lra |].
    cbn. destruct (run_not_ahead t0 clks Hrest s1 Hs1) as (s' & Es & Hs').
    exists s'. split; [exact Es|].
    destruct Hs' as (k & start & _ & Hr & _). apply Hr.
Qed.

Lemma sequence_10_20_5_completion_witness :
  let clk := V2.mkClock 0 0 0 0 in
  (exists s' : V2.Session,
      V2.sequence_steps (clk :: tail (V2.clocks_every 1 38)) V2.session_10_20_5 = Some s'
      /\ V2.sequence_completed s')
  /\ (exists s' : V2.Session,
         V2.sequence_steps (clk :: tail (V2.clocks_every 1 30)) V2.session_10_20_5 = Some s'
         /\ V2.simulation_running s' = true).
Proof.
  cbv zeta. split.
  - apply (proj1 (sequence_10_20_5_completion 1 V2.session_10_20_5
                    (V2.mkClock 0 0 0 0) (tail (V2.clocks_every 1 38))
                    session_10_20_5_started tasks_10_20_5_durations)).
    + lra.
    + vm_compute. repeat split; discriminate.
    + vm_compute. discriminate.
  - apply (proj2 (sequence_10_20_5_completion 1 V2.session_10_20_5
                    (V2.mkClock 0 0 0 0) (tail (V2.clocks_every 1 30))
                    session_10_20_5_started tasks_10_20_5_durations)).
    cbn [tail V2.clocks_every seq map].
    repeat (constructor; [split; vm_compute; [discriminate | reflexivity]|]).
    constructor.
Defined.

End Sequencer.

(** ** The script run as a whole, and the scenarios of the specification *)

Section Scenarios.

Local Open Scope string_scope.
Local Open Scope Q_scope.

(** A run of the script advances the sequence as [sequence_step] does;
    updating the cells leaves the sequencer's fields alone. *)
Lemma rerun_sequence (clk : V2.Clock) (rnd : string -> Q) (s s' : V2.Session) :
  V2.rerun clk rnd s = Some s' ->
  exists s1 : V2.Session,
    V2.sequence_step clk s = Some s1
    /\ V2.task_sequence s' = V2.task_sequence s1
    /\ V2.current_task_step s' = V2.current_task_step s1
    /\ V2.task_start_time s' = V2.task_start_time s1
    /\ V2.simulation_running s' = V2.simulation_running s1.
Proof.
  unfold V2.rerun. destruct (V2.current_task s) as [ty ps].
  destruct (V2.sequence_step clk s) as [s1|]; [|discriminate]. cbn.
  destruct (V2.simulation_running s1) eqn:Hr; intros [= <-]; exists s1;
    repeat split; cbn; congruence.
Qed.

Example lower_names :
  Py.lower "Lead-Acid" = "lead-acid" /\ Py.lower "NiMH" = "nimh"
  /\ Py.lower "LFP" = "lfp" /\ Py.lower "nmc" = "nmc".
Proof. repeat split. Qed.

Example round_two_digits :
  Py.round 3.14159 2 == 3.14 /\ Py.round 0.125 2 == 0.12 /\ Py.round 0.135 2 == 0.14
  /\ Py.round (-7.4) 0 == -7 /\ Py.round 2.5 0 == 2.
Proof. repeat split. Qed.

(** The estimator is 0 at the lower bound and 100 at the upper bound of
    every chemistry. *)
Example calculate_soc_at_bounds :
  V1.calculate_soc 2.5 "LFP" == 0 /\ V1.calculate_soc 3.65 "LFP" == 100
  /\ V1.calculate_soc 3.0 "NMC" == 0 /\ V1.calculate_soc 4.2 "NMC" == 100
  /\ V1.calculate_soc 1.0 "NiMH" == 0 /\ V1.calculate_soc 1.4 "NiMH" == 100
  /\ V1.calculate_soc 1.8 "Lead-Acid" == 0 /\ V1.calculate_soc 2.1 "Lead-Acid" == 100
  /\ V1.calculate_soc 3.0 "unknown" == 0 /\ V1.calculate_soc 4.2 "unknown" == 100.
Proof. repeat split. Qed.

(** One LFP cell at 3.2 V, 0 A, 25 degrees: about 60.9 %, and a health of
    98.5 before the noise. *)
Example lfp_scenario :
  V1.calculate_soc 3.2 "LFP" == 1400 # 23
  /\ V1.calculate_battery_health 3.2 0 25 (V1.calculate_soc 3.2 "LFP") "LFP" 0 == 98.5
  /\ fst (fst (V1.get_detailed_cell_status 98.5 25 3.2 (1400 # 23) "LFP")) = "Excellent".
Proof. repeat split. Qed.

(** An NMC cell at 4.2 V, 10 A, 55 degrees and 98 %. *)
Example nmc_scenario :
  V1.calculate_battery_health 4.2 10 55 98 "NMC" 0 == 67
  /\ V1.get_detailed_cell_status 67 55 4.2 98 "NMC"
     = ("Warning", "status-warning",
        ["Check cell parameters"; "Cool down the battery"; "Avoid overcharging";
         "Check voltage regulation"]).
Proof. repeat split. Qed.

(** An LFP cell at its maximum stays there under CC_CV. *)
Example lfp_charging_at_max :
  let c := V2.mkCell 3.6 0 30 0 2.8 3.6 99 90 "IDLE" (Some "lfp") in
  let c' := V2.simulate_battery_operation c "CC_CV" (<["current" := 2.0]> ∅) 0.25 in
  V2.voltage c' == 3.6 /\ V2.soc c' == 99.5 /\ V2.status c' = "CHARGING"
  /\ V2.capacity c' == 7.2.
Proof. repeat split. Qed.

End Scenarios.

(** ** More on the state-of-charge estimator *)

Section Soc_shape.

Local Open Scope string_scope.
Local Open Scope Q_scope.

Lemma interpolation_low (lo hi v : Q) :
  lo < hi -> v <= lo -> (v - lo) / (hi - lo) * 100 <= 0.
Proof.
  intros Hw Hv.
  assert (H : (v - lo) / (hi - lo) <= 0)
    by (apply Qle_shift_div_r; lra).
  lra.
Qed.

Lemma interpolation_high (lo hi v : Q) :
  lo < hi -> hi <= v -> 100 <= (v - lo) / (hi - lo) * 100.
Proof.
  intros Hw Hv.
  assert (H : 1 <= (v - lo) / (hi - lo))
    by (apply Qle_shift_div_l; lra).
  lra.
Qed.

Lemma interpolation_inside (lo hi v : Q) :
  lo < hi -> lo <= v <= hi -> 0 <= (v - lo) / (hi - lo) * 100 <= 100.
Proof.
  intros Hw Hv.
  assert (H0 : 0 <= (v - lo) / (hi - lo))
    by (apply Qle_shift_div_l; lra).
  assert (H1 : (v - lo) / (hi - lo) <= 1)
    by (apply Qle_shift_div_r; lra).
  lra.
Qed.

(** The width of the range the estimator looks up is positive. *)
Lemma voltage_range_width (cell_type : string) :
  let range := Py.get V1.voltage_ranges (Py.lower cell_type) (3.0, 4.2) in
  fst range < snd range.
Proof. cbv zeta. rewrite voltage_ranges_get. apply bounds_width. Qed.

Lemma calculate_soc_range (voltage : Q) (cell_type : string) :
  let range := Py.get V1.voltage_ranges (Py.lower cell_type) (3.0, 4.2) in
  V1.calculate_soc voltage cell_type
  = Py.max 0 (Py.min 100 ((voltage - fst range) / (snd range - fst range) * 100)).
Proof.
  cbv zeta. unfold V1.calculate_soc.
  destruct (Py.get V1.voltage_ranges (Py.lower cell_type) (3.0, 4.2)); reflexivity.
Qed.

(** The estimator saturates: it is 0 at and below the lower bound of the
    cell type's range, 100 at and above the upper bound, and the plain
    interpolation in between. *)
Theorem calculate_soc_saturates (voltage : Q) (cell_type : string) :
  let range := Py.get V1.voltage_ranges (Py.lower cell_type) (3.0, 4.2) in
  (voltage <= fst range -> V1.calculate_soc voltage cell_type == 0)
  /\ (snd range <= voltage -> V1.calculate_soc voltage cell_type == 100)
  /\ (fst range <= voltage <= snd range ->
      V1.calculate_soc voltage cell_type
      == (voltage - fst range) / (snd range - fst range) * 100).
Proof.
  cbv zeta. rewrite calculate_soc_range. cbv zeta.
  pose proof (voltage_range_width cell_type) as Hw. cbv zeta in Hw.
  set (lo := fst _) in *. set (hi := snd _) in *.
  split; [|split]; intros Hv.
  - pose proof (interpolation_low lo hi voltage Hw Hv).
    set (x := (voltage - lo) / (hi - lo) * 100) in *. py_cases; lra.
  - pose proof (interpolation_high lo hi voltage Hw Hv).
    set (x := (voltage - lo) / (hi - lo) * 100) in *. py_cases; lra.
  - pose proof (interpolation_inside lo hi voltage Hw Hv).
    set (x := (voltage - lo) / (hi - lo) * 100) in *. py_cases; lra.
Qed.

Lemma calculate_soc_saturates_witness :
  V1.calculate_soc 1.0 "LFP" == 0
  /\ V1.calculate_soc 4.9 "nmc" == 100
  /\ V1.calculate_soc 1.2 "NiMH" == (1.2 - 1.0) / (1.4 - 1.0) * 100.
Proof.
  split; [|split].
  - apply (proj1 (calculate_soc_saturates 1.0 "LFP")). vm_compute. discriminate.
  - apply (proj1 (proj2 (calculate_soc_saturates 4.9 "nmc"))). vm_compute. discriminate.
  - apply (proj2 (proj2 (calculate_soc_saturates 1.2 "NiMH"))).
    split; vm_compute; discriminate.
Defined.

(** Inside the range the voltage can be read back from the state of charge,
    so the estimator is strictly increasing there. *)
Theorem calculate_soc_inverse (cell_type : string) :
  let range := Py.get V1.voltage_ranges (Py.lower cell_type) (3.0, 4.2) in
  (forall v : Q,
      fst range <= v <= snd range ->
      fst range + V1.calculate_soc v cell_type / 100 * (snd range - fst range) == v)
  /\ (forall v1 v2 : Q,
         fst range <= v1 -> v1 < v2 -> v2 <= snd range ->
         V1.calculate_soc v1 cell_type < V1.calculate_soc v2 cell_type).
Proof.
  cbv zeta.
  pose proof (voltage_range_width cell_type) as Hw. cbv zeta in Hw.
  assert (Hinv : forall v : Q,
             fst (Py.get V1.voltage_ranges (Py.lower cell_type) (3.0, 4.2)) <= v
               <= snd (Py.get V1.voltage_ranges (Py.lower cell_type) (3.0, 4.2)) ->
             fst (Py.get V1.voltage_ranges (Py.lower cell_type) (3.0, 4.2))
             + V1.calculate_soc v cell_type / 100
               * (snd (Py.get V1.voltage_ranges (Py.lower cell_type) (3.0, 4.2))
                  - fst (Py.get V1.voltage_ranges (Py.lower cell_type) (3.0, 4.2)))
             == v).
  { intros v Hv.
    rewrite (proj2 (proj2 (calculate_soc_saturates v cell_type)) Hv).
    set (lo := fst _) in *. set (hi := snd _) in *. field. lra. }
  split; [exact Hinv|].
  intros v1 v2 H1 H12 H2.
  pose proof (Hinv v1 ltac:(lra)) as E1. pose proof (Hinv v2 ltac:(lra)) as E2.
  set (lo := fst _) in *. set (hi := snd _) in *.
  set (s1 := V1.calculate_soc v1 cell_type) in *.
  set (s2 := V1.calculate_soc v2 cell_type) in *.
  destruct (Qlt_le_dec s1 s2) as [Hlt|Hge]; [exact Hlt | exfalso].
  assert (Hm : s2 / 100 * (hi - lo) <= s1 / 100 * (hi - lo)).
  { apply Qmult_le_compat_r; [|lra].
    unfold Qdiv. apply Qmult_le_compat_r; [exact Hge | discriminate]. }
  set (a1 := s1 / 100 * (hi - lo)) in *. set (a2 := s2 / 100 * (hi - lo)) in *.
  lra.
Qed.

Lemma calculate_soc_inverse_witness :
  2.5 + V1.calculate_soc 3.2 "LFP" / 100 * (3.65 - 2.5) == 3.2
  /\ V1.calculate_soc 3.2 "LFP" < V1.calculate_soc 3.3 "LFP".
Proof.
  split.
  - apply (proj1 (calculate_soc_inverse "LFP") 3.2). split; vm_compute; discriminate.
  - apply (proj2 (calculate_soc_inverse "LFP") 3.2 3.3);
      vm_compute; first [discriminate | reflexivity].
Defined.

End Soc_shape.

(** ** More on the health scorer *)

Section Health_shape.

Local Open Scope string_scope.
Local Open Scope Q_scope.

(** Unfolds the scorer and names what it measures. *)
Ltac health_cases :=
  unfold V1.calculate_battery_health, Py.abs in *;
  repeat match goal with
  | |- context [Qabs ?x] =>
      let a := fresh "a" in
      let Ha := fresh "Ha" in
      pose proof (Qabs_nonneg x) as Ha; set (a := Qabs x) in *
  end;
  py_cases; try lra.

(** No penalty is negative: whatever the cell, the score is at most what a
    faultless cell gets from the same noise draw. *)
Theorem calculate_battery_health_at_most_noise
    (voltage current temp soc : Q) (cell_type : string) (noise : Q) :
  V1.calculate_battery_health voltage current temp soc cell_type noise
  <= Py.max 0 (Py.min 100 (100 + noise)).
Proof. health_cases. Qed.

(** A cell between 10 and 40 degrees, at the optimal voltage of its type,
    with at most 5 A and between 20 and 90 percent, loses nothing: its score
    is 100 plus the noise, clamped. *)
Theorem calculate_battery_health_nominal
    (voltage current temp soc : Q) (cell_type : string) (noise : Q) :
  10 <= temp <= 40 ->
  voltage == Py.get V1.optimal_voltages (Py.lower cell_type) 3.7 ->
  -5 <= current <= 5 ->
  20 <= soc <= 90 ->
  V1.calculate_battery_health voltage current temp soc cell_type noise
  == Py.max 0 (Py.min 100 (100 + noise)).
Proof.
  intros Ht Hv Hi Hs.
  assert (E : voltage - Py.get V1.optimal_voltages (Py.lower cell_type) 3.7 == 0)
    by (rewrite Hv; ring).
  assert (Hdev : Qabs (voltage - Py.get V1.optimal_voltages (Py.lower cell_type) 3.7) == 0)
    by (rewrite E; reflexivity).
  assert (Hcur : Qabs current <= 5) by (apply Qabs_Qle_condition; lra).
  health_cases.
Qed.

Lemma calculate_battery_health_nominal_witness :
  V1.calculate_battery_health 3.3 2 25 60 "LFP" (-1)
  == Py.max 0 (Py.min 100 (100 + -1)).
Proof.
  apply calculate_battery_health_nominal.
  - split; vm_compute; discriminate.
  - vm_compute. reflexivity.
  - split; vm_compute; discriminate.
  - split; vm_compute; discriminate.
Defined.

Lemma health_at_least_3
    (voltage current temp soc : Q) (cell_type : string) (noise : Q) :
  0 <= soc <= 100 ->
  -2 <= noise ->
  3 <= V1.calculate_battery_health voltage current temp soc cell_type noise.
Proof. intros Hs Hn. health_cases. Qed.

(** With a state of charge in [0,100] and a noise draw of at least -2 the
    penalties add up to at most 95, so the score is at least 3. *)
Theorem calculate_battery_health_at_least_3
    (voltage current temp soc : Q) (cell_type : string) (noise : Q) :
  0 <= soc <= 100 ->
  -2 <= noise ->
  3 <= V1.calculate_battery_health voltage current temp soc cell_type noise.
Proof. apply health_at_least_3. Qed.

Lemma calculate_battery_health_at_least_3_witness :
  3 <= V1.calculate_battery_health 0 15 70 0 "NMC" (-2).
Proof.
  apply calculate_battery_health_at_least_3; [split|]; vm_compute; discriminate.
Defined.

(** The penalties are not monotone: just above 50 degrees the temperature
    penalty restarts from 0, so up to 55 degrees a cell scores at least as
    well as at exactly 50; and just above 8 A the current penalty restarts
    from 0, so up to 9.5 A a cell scores at least as well as at 8 A. *)
Theorem calculate_battery_health_cliffs
    (voltage current temp soc : Q) (cell_type : string) (noise : Q) :
  (50 < temp <= 55 ->
   V1.calculate_battery_health voltage current 50 soc cell_type noise
   <= V1.calculate_battery_health voltage current temp soc cell_type noise)
  /\ (8 < current <= 9.5 ->
      V1.calculate_battery_health voltage 8 temp soc cell_type noise
      <= V1.calculate_battery_health voltage current temp soc cell_type noise).
Proof.
  split.
  - intros Ht. health_cases.
  - intros Hi.
    assert (E8 : Qabs 8 == 8) by reflexivity.
    assert (Ec : Qabs current == current) by (apply Qabs_pos; lra).
    health_cases.
Qed.

Lemma calculate_battery_health_cliffs_witness :
  V1.calculate_battery_health 3.7 0 50 50 "NMC" 0
  <= V1.calculate_battery_health 3.7 0 51 50 "NMC" 0
  /\ V1.calculate_battery_health 3.7 8 25 50 "NMC" 0
     <= V1.calculate_battery_health 3.7 9 25 50 "NMC" 0.
Proof.
  split.
  - apply (proj1 (calculate_battery_health_cliffs 3.7 0 51 50 "NMC" 0)).
    split; vm_compute; [reflexivity | discriminate].
  - apply (proj2 (calculate_battery_health_cliffs 3.7 9 25 50 "NMC" 0)).
    split; vm_compute; [reflexivity | discriminate].
Defined.

(** The drop is real: at 51 degrees an otherwise faultless cell scores 97,
    at 50 degrees 85. *)
Example health_at_50_and_51 :
  V1.calculate_battery_health 3.7 0 50 50 "NMC" 0 == 85
  /\ V1.calculate_battery_health 3.7 0 51 50 "NMC" 0 == 97.
Proof. split; reflexivity. Qed.

End Health_shape.

(** ** The displays and the export of variant 1 *)

Section Displays.

Local Open Scope string_scope.
Local Open Scope Q_scope.

(** The bar colour follows the status: green for Excellent and Good, blue
    for Normal, yellow for Warning, red for Critical and Danger. *)
Theorem health_color_follows_status (health temp voltage soc : Q) (cell_type : string) :
  let status := fst (fst (V1.get_detailed_cell_status health temp voltage soc cell_type)) in
  let color := V1.health_color health in
  ((status = "Excellent" \/ status = "Good") /\ color = "#28a745")
  \/ (status = "Normal" /\ color = "#17a2b8")
  \/ (status = "Warning" /\ color = "#ffc107")
  \/ ((status = "Critical" \/ status = "Danger") /\ color = "#dc3545").
Proof.
  cbv zeta. rewrite status_refines_spec. cbn [fst].
  unfold Spec.status_label, V1.health_color.
  py_cases; try (exfalso; lra); tauto.
Qed.

(** The export writes "None" in the Suggestions column exactly for the
    cells that need no advice: health at least 85, temperature between 5 and
    45 degrees, state of charge between 15 and 95 percent, and a voltage
    within 0.3 V of the optimal voltage of the cell type. *)
Theorem download_row_no_suggestion (timestamp : Q) (cell_key : string) (cell : V1.Cell) :
  V1.Suggestions (V1.download_row timestamp (cell_key, cell)) = "None"
  <-> (85 <= V1.health cell
       /\ 5 <= V1.temp cell <= 45
       /\ 15 <= V1.soc cell <= 95
       /\ Qabs (V1.voltage cell
                - Py.get V1.optimal_voltages (Py.lower (V1.type cell)) 3.7) <= 0.3).
Proof.
  unfold V1.download_row, V1.cell_status. cbn [fst snd].
  rewrite status_refines_spec. cbn [V1.Suggestions].
  unfold Spec.health_suggestions, Spec.temperature_suggestions,
    Spec.soc_suggestions, Spec.voltage_suggestions.
  rewrite <- optimal_voltages_get.
  remember (Qabs _) as dev eqn:Edev. clear Edev.
  py_cases; cbn; (split; [intros E; try discriminate E; lra
                         | intros H; try reflexivity; exfalso; lra]).
Qed.

Lemma status_counts_snoc (cells : list (string * V1.Cell)) (kc : string * V1.Cell) :
  V1.status_counts (cells ++ [kc])
  = <[fst (fst (V1.cell_status (snd kc))) :=
        (Py.get (V1.status_counts cells) (fst (fst (V1.cell_status (snd kc)))) 0 + 1)%nat]>
      (V1.status_counts cells).
Proof.
  unfold V1.status_counts. rewrite foldl_app. cbn [foldl].
  destruct (V1.cell_status (snd kc)) as [[status class] sugg]. reflexivity.
Qed.

(** The pie chart counts every cell once, under its status: a label is a
    key of [status_counts] exactly when some cell has that status, and its
    value is the number of those cells. *)
Theorem status_counts_counts (cells : list (string * V1.Cell)) (label : string) :
  let n := count_occ String.string_dec
             (map (fun kc => fst (fst (V1.cell_status (snd kc)))) cells) label in
  V1.status_counts cells !! label = (if (n =? 0)%nat then None else Some n).
Proof.
  cbv zeta. induction cells as [|kc cells IH] using rev_ind.
  - reflexivity.
  - rewrite status_counts_snoc, map_app, count_occ_app. cbn [map count_occ].
    remember (fst (fst (V1.cell_status (snd kc)))) as status eqn:Es. clear Es.
    remember (count_occ _ _ label) as n eqn:En. clear En.
    destruct (String.string_dec status label) as [->|Hne].
    + rewrite lookup_insert_eq. unfold Py.get. rewrite IH.
      destruct n as [|n]; reflexivity.
    + rewrite lookup_insert_ne by exact Hne. rewrite IH.
      replace (n + 0)%nat with n by lia. reflexivity.
Qed.

End Displays.

(** ** Rounding *)

Section Rounding.

Local Open Scope Q_scope.

Lemma round_half_even_integer (x : Q) (z : Z) :
  x == inject_Z z -> Py.round_half_even x = z.
Proof.
  intros E. rewrite (round_half_even_comp _ _ E). unfold Py.round_half_even.
  rewrite Qfloor_Z.
  assert (E0 : inject_Z z - inject_Z z == 0) by ring.
  rewrite (Qcompare_comp _ _ E0 (1 # 2) (1 # 2) (Qeq_refl _)). reflexivity.
Qed.

Lemma scale_positive (ndigits : nat) : (0 < 10 ^ Z.of_nat ndigits)%Z.
Proof. apply Z.pow_pos_nonneg; lia. Qed.

(** Rounding a rounded number again, to the same number of digits, changes
    nothing. *)
Lemma round_round (x : Q) (ndigits : nat) :
  Py.round (Py.round x ndigits) ndigits = Py.round x ndigits.
Proof.
  unfold Py.round. f_equal. apply round_half_even_integer.
  pose proof (scale_positive ndigits) as Hs.
  set (scale := (10 ^ Z.of_nat ndigits)%Z) in *.
  set (z := Py.round_half_even (x * inject_Z scale)).
  unfold Qeq, Qmult, inject_Z; cbn [Qnum Qden].
  rewrite Pos.mul_1_r, Z2Pos.id by exact Hs. ring.
Qed.

(** The nearest integer is at most one half away. *)
Lemma round_half_even_error (x : Q) :
  Qabs (inject_Z (Py.round_half_even x) - x) <= 1 # 2.
Proof.
  unfold Py.round_half_even.
  pose proof (Qfloor_le x) as Hlo. pose proof (Qlt_floor x) as Hhi.
  rewrite inject_Z_plus in Hhi. change (inject_Z 1) with 1 in Hhi.
  apply Qabs_Qle_condition.
  destruct (Qcompare (x - inject_Z (Qfloor x)) (1 # 2)) eqn:Hc.
  - apply Qeq_alt in Hc. destruct (Z.even (Qfloor x));
      rewrite ?inject_Z_plus; change (inject_Z 1) with 1;
      remember (inject_Z (Qfloor x)) as f eqn:Ef; clear Ef; split; lra.
  - apply Qlt_alt in Hc.
    remember (inject_Z (Qfloor x)) as f eqn:Ef; clear Ef. split; lra.
  - apply Qgt_alt in Hc. rewrite inject_Z_plus. change (inject_Z 1) with 1.
    remember (inject_Z (Qfloor x)) as f eqn:Ef; clear Ef. split; lra.
Qed.

(** An integer below the argument stays below its rounding, and one above
    stays above. *)
Lemma round_half_even_between (x : Q) (a b : Z) :
  inject_Z a <= x <= inject_Z b -> (a <= Py.round_half_even x <= b)%Z.
Proof.
  intros [Ha Hb]. unfold Py.round_half_even.
  assert (Hfa : (a <= Qfloor x)%Z)
    by (rewrite <- (Qfloor_Z a); apply Qfloor_resp_le; exact Ha).
  assert (Hfb : (Qfloor x <= b)%Z)
    by (rewrite <- (Qfloor_Z b); apply Qfloor_resp_le; exact Hb).
  destruct (Z.eq_dec (Qfloor x) b) as [E|Hne].
  - assert (Ex : x - inject_Z (Qfloor x) <= 0).
    { rewrite E. remember (inject_Z b) as q eqn:Eq; clear Eq. lra. }
    assert (Hc : Qcompare (x - inject_Z (Qfloor x)) (1 # 2) = Lt)
      by (apply Qlt_alt; eapply Qle_lt_trans; [exact Ex | reflexivity]).
    rewrite Hc. lia.
  - destruct (Qcompare _ _); [destruct (Z.even _)| |]; lia.
Qed.

(** Two digits: the rounded value is within 0.005 of the argument. *)
Lemma round_2_error (x : Q) : Qabs (Py.round x 2 - x) <= 0.005.
Proof.
  unfold Py.round. change (10 ^ Z.of_nat 2)%Z with 100%Z.
  change (Z.to_pos 100) with 100%positive.
  pose proof (round_half_even_error (x * inject_Z 100)) as H.
  set (z := Py.round_half_even (x * inject_Z 100)) in *.
  assert (E : (z # 100) == inject_Z z * (1 # 100)).
  { unfold Qeq, Qmult, inject_Z; cbn [Qnum Qden]. lia. }
  apply Qabs_Qle_condition in H. apply Qabs_Qle_condition.
  change (inject_Z 100) with 100 in H. rewrite E. split; lra.
Qed.

Lemma round_2_between (x : Q) (a b : Z) :
  inject_Z a <= x * 100 <= inject_Z b ->
  inject_Z a * (1 # 100) <= Py.round x 2 <= inject_Z b * (1 # 100).
Proof.
  intros H. unfold Py.round. change (10 ^ Z.of_nat 2)%Z with 100%Z.
  change (Z.to_pos 100) with 100%positive.
  pose proof (round_half_even_between (x * inject_Z 100) a b H) as [Ha Hb].
  set (z := Py.round_half_even (x * inject_Z 100)) in *.
  assert (E : (z # 100) == inject_Z z * (1 # 100)).
  { unfold Qeq, Qmult, inject_Z; cbn [Qnum Qden]. lia. }
  rewrite E. rewrite Zle_Qle in Ha, Hb. split; lra.
Qed.

End Rounding.

(** ** What a tick of variant 1 keeps *)

Section Tick_ranges.

Local Open Scope string_scope.
Local Open Scope Q_scope.

Lemma calculate_soc_bounds (voltage : Q) (cell_type : string) :
  0 <= V1.calculate_soc voltage cell_type <= 100.
Proof. rewrite calculate_soc_unfold. cbv zeta. apply clamp_bounds. lra. Qed.

Lemma health_bounds (voltage current temp soc : Q) (cell_type : string) (noise : Q) :
  0 <= V1.calculate_battery_health voltage current temp soc cell_type noise <= 100.
Proof. unfold V1.calculate_battery_health. apply clamp_bounds. lra. Qed.

(** After a tick the temperature is in [-10,70] and the current in
    [-15,15]; the state of charge is the estimate for the new voltage, and
    with it in [0,100]; the health is in [0,100]; the cell type is the one
    before. *)
Theorem tick_cell_ranges (d : V1.Draws) (cell : V1.Cell) :
  let cell' := V1.tick_cell d cell in
  -10 <= V1.temp cell' <= 70
  /\ -15 <= V1.current cell' <= 15
  /\ V1.soc cell' = V1.calculate_soc (V1.voltage cell') (V1.type cell')
  /\ 0 <= V1.soc cell' <= 100
  /\ 0 <= V1.health cell' <= 100
  /\ V1.type cell' = V1.type cell.
Proof.
  cbv zeta. unfold V1.tick_cell.
  cbn [V1.temp V1.current V1.soc V1.health V1.type V1.voltage
       V1.set_temp V1.set_voltage V1.set_current V1.set_soc V1.set_capacity
       V1.set_health].
  split; [apply clamp_bounds; lra|].
  split; [apply clamp_bounds; lra|].
  split; [reflexivity|].
  split; [apply calculate_soc_bounds|].
  split; [apply health_bounds | reflexivity].
Qed.

(** The sidebar update and the tick leave a cell whose health is at least 3
    when the scorer's noise is at least -2, as [random.uniform(-2, 2)]
    gives it: the state of charge they pass to the scorer is in [0,100]. *)
Theorem updated_cell_health_at_least_3 :
  (forall (cell_type : string) (voltage current temp noise : Q) (cell : V1.Cell),
      -2 <= noise ->
      3 <= V1.health (V1.sidebar_update cell_type voltage current temp noise cell))
  /\ (forall (d : V1.Draws) (cell : V1.Cell),
         -2 <= V1.health_draw d ->
         3 <= V1.health (V1.tick_cell d cell)).
Proof.
  split.
  - intros ct v i t n cell Hn. cbn [V1.sidebar_update V1.health].
    apply health_at_least_3; [apply calculate_soc_bounds | exact Hn].
  - intros d cell Hn. unfold V1.tick_cell.
    cbn [V1.temp V1.current V1.soc V1.health V1.type V1.voltage
         V1.set_temp V1.set_voltage V1.set_current V1.set_soc V1.set_capacity
         V1.set_health].
    apply health_at_least_3; [apply calculate_soc_bounds | exact Hn].
Qed.

Lemma updated_cell_health_at_least_3_witness :
  3 <= V1.health (V1.sidebar_update "NMC" 0 15 70 (-2) (V1.mkCell "NMC" 0 0 0 0 0 0))
  /\ 3 <= V1.health (V1.tick_cell (V1.mkDraws 2 0 0 (-2)) (V1.mkCell "NMC" 5 15 70 0 0 0)).
Proof.
  split.
  - apply (proj1 updated_cell_health_at_least_3). vm_compute. discriminate.
  - apply (proj2 updated_cell_health_at_least_3). vm_compute. discriminate.
Defined.

(** After a tick the capacity is within 0.005 of voltage times |current|,
    and lies between 0 and 75. *)
Theorem tick_cell_capacity_accuracy (d : V1.Draws) (cell : V1.Cell) :
  let cell' := V1.tick_cell d cell in
  Qabs (V1.capacity cell' - V1.voltage cell' * Qabs (V1.current cell')) <= 0.005
  /\ 0 <= V1.capacity cell' <= 75.
Proof.
  cbv zeta.
  pose proof (tick_cell_voltage d cell) as Hv.
  assert (Hi : -15 <= V1.current (V1.tick_cell d cell) <= 15).
  { unfold V1.tick_cell.
    cbn [V1.current V1.set_temp V1.set_voltage V1.set_current V1.set_soc
         V1.set_capacity V1.set_health].
    apply clamp_bounds. lra. }
  assert (Ec : V1.capacity (V1.tick_cell d cell)
               = Py.round (V1.voltage (V1.tick_cell d cell)
                           * Py.abs (V1.current (V1.tick_cell d cell))) 2)
    by reflexivity.
  rewrite Ec. unfold Py.abs.
  remember (V1.voltage (V1.tick_cell d cell)) as v eqn:Ev. clear Ev.
  remember (V1.current (V1.tick_cell d cell)) as i eqn:Ei. clear Ei Ec.
  split; [apply round_2_error|].
  assert (Ha : 0 <= Qabs i <= 15)
    by (split; [apply Qabs_nonneg | apply Qabs_Qle_condition; lra]).
  remember (Qabs i) as a eqn:Ea. clear Ea.
  assert (Hp : 0 <= v * a <= 75) by (split; nra).
  pose proof (round_2_between (v * a) 0 7500) as H.
  change (inject_Z 0) with 0 in H. change (inject_Z 7500) with 7500 in H.
  assert (H' : 0 <= v * a * 100 <= 7500) by (split; lra).
  specialize (H H'). lra.
Qed.

(** The export rounds the capacity to two digits again, which changes
    nothing: for a cell left by the sidebar update or by a tick, the
    Capacity_Wh column is the capacity of the store. *)
Theorem download_row_capacity (timestamp : Q) (cell_key : string) :
  (forall (cell_type : string) (voltage current temp noise : Q) (cell : V1.Cell),
      let cell' := V1.sidebar_update cell_type voltage current temp noise cell in
      V1.Capacity_Wh (V1.download_row timestamp (cell_key, cell')) = V1.capacity cell')
  /\ (forall (d : V1.Draws) (cell : V1.Cell),
         let cell' := V1.tick_cell d cell in
         V1.Capacity_Wh (V1.download_row timestamp (cell_key, cell')) = V1.capacity cell').
Proof.
  assert (H : forall cell : V1.Cell,
             V1.Capacity_Wh (V1.download_row timestamp (cell_key, cell))
             = Py.round (V1.capacity cell) 2).
  { intros cell. unfold V1.download_row. cbn [fst snd].
    destruct (V1.cell_status cell) as [[status class] sugg]. reflexivity. }
  split; intros; subst cell'; rewrite H.
  - cbn [V1.sidebar_update V1.capacity]. apply round_round.
  - assert (Ec : V1.capacity (V1.tick_cell d cell)
                 = Py.round (V1.voltage (V1.tick_cell d cell)
                             * Py.abs (V1.current (V1.tick_cell d cell))) 2)
      by reflexivity.
    rewrite Ec. apply round_round.
Qed.

End Tick_ranges.

(** ** The store of variant 1 over a simulation *)

Section Store.

Local Open Scope Q_scope.

Lemma simulation_tick_keys (t : Q) (rnd : string -> V1.Draws) (s : V1.Session) :
  map fst (V1.cells_data (V1.simulation_tick t rnd s)) = map fst (V1.cells_data s)
  /\ map (fun kc => V1.type (snd kc)) (V1.cells_data (V1.simulation_tick t rnd s))
     = map (fun kc => V1.type (snd kc)) (V1.cells_data s).
Proof.
  unfold V1.simulation_tick, V1.tick_cells; cbn [V1.cells_data].
  rewrite !map_map. split; apply map_ext; intros [k c]; reflexivity.
Qed.

Lemma simulation_tick_cells_in_range (t : Q) (rnd : string -> V1.Draws) (s : V1.Session) :
  Forall (fun kc =>
            0.1 <= V1.voltage (snd kc) <= 5.0
            /\ -10 <= V1.temp (snd kc) <= 70
            /\ -15 <= V1.current (snd kc) <= 15
            /\ 0 <= V1.soc (snd kc) <= 100
            /\ 0 <= V1.health (snd kc) <= 100)
         (V1.cells_data (V1.simulation_tick t rnd s)).
Proof.
  unfold V1.simulation_tick, V1.tick_cells; cbn [V1.cells_data].
  apply Forall_map, Forall_forall. intros [k c] _. cbn [fst snd].
  split; [apply tick_cell_voltage|].
  generalize (rnd k) as d; intros d.
  unfold V1.tick_cell.
  cbn [V1.temp V1.current V1.soc V1.health V1.type V1.voltage
       V1.set_temp V1.set_voltage V1.set_current V1.set_soc V1.set_capacity
       V1.set_health].
  split; [apply clamp_bounds; lra|].
  split; [apply clamp_bounds; lra|].
  split; [apply calculate_soc_bounds | apply health_bounds].
Qed.

(** A simulation neither adds nor removes nor reorders cells, and changes no
    cell type; after at least one tick every cell has its voltage in
    [0.1,5], its temperature in [-10,70], its current in [-15,15], its state
    of charge and its health in [0,100], whatever the store held before. *)
Theorem simulation_keeps_cells
    (ticks : list (Q * (string -> V1.Draws))) (s : V1.Session) :
  let s' := V1.simulation ticks s in
  map fst (V1.cells_data s') = map fst (V1.cells_data s)
  /\ map (fun kc => V1.type (snd kc)) (V1.cells_data s')
     = map (fun kc => V1.type (snd kc)) (V1.cells_data s)
  /\ (ticks <> [] ->
      Forall (fun kc =>
                0.1 <= V1.voltage (snd kc) <= 5.0
                /\ -10 <= V1.temp (snd kc) <= 70
                /\ -15 <= V1.current (snd kc) <= 15
                /\ 0 <= V1.soc (snd kc) <= 100
                /\ 0 <= V1.health (snd kc) <= 100)
             (V1.cells_data s')).
Proof.
  cbv zeta. revert s. induction ticks as [|[t rnd] ticks IH]; intros s.
  - split; [reflexivity|]. split; [reflexivity|]. intros H. now destruct H.
  - cbn [V1.simulation].
    destruct (IH (V1.simulation_tick t rnd s)) as (Ek & Et & Hr).
    destruct (simulation_tick_keys t rnd s) as [Ek' Et'].
    split; [congruence|]. split; [congruence|]. intros _.
    destruct ticks as [|tick ticks].
    + apply simulation_tick_cells_in_range.
    + apply Hr. discriminate.
Qed.

Lemma simulation_keeps_cells_witness :
  let tick := (0, fun _ : string => V1.mkDraws 1 1 1 1) in
  let s := V1.mkSession [("cell_1"%string, V1.mkCell "NMC" 9 99 99 0 50 90)] [] [] in
  Forall (fun kc =>
            0.1 <= V1.voltage (snd kc) <= 5.0
            /\ -10 <= V1.temp (snd kc) <= 70
            /\ -15 <= V1.current (snd kc) <= 15
            /\ 0 <= V1.soc (snd kc) <= 100
            /\ 0 <= V1.health (snd kc) <= 100)
         (V1.cells_data (V1.simulation [tick] s)).
Proof.
  cbv zeta. apply (proj2 (proj2 (simulation_keeps_cells _ _))). discriminate.
Defined.

End Store.

(** ** More on the update of variant 2 *)

Section Operation.

Local Open Scope string_scope.
Local Open Scope Q_scope.

Lemma simulate_cc_cv (c : V2.Cell) (ps : gmap string Q) (n : Q) :
  let c' := V2.simulate_battery_operation c "CC_CV" ps n in
  V2.voltage c' = Py.min (V2.voltage c + 0.01) (V2.max_voltage c)
  /\ V2.soc c' = Py.min (V2.soc c + 0.5) 100
  /\ V2.current c' = Py.get ps "current" 1.0
  /\ V2.status c' = "CHARGING".
Proof.
  unfold V2.simulate_battery_operation. cbn.
  match goal with |- context [Py.gtb ?x ?y] => destruct (Py.gtb x y) end;
    cbn; repeat split.
Qed.

Lemma simulate_cc_cd (c : V2.Cell) (ps : gmap string Q) (n : Q) :
  let c' := V2.simulate_battery_operation c "CC_CD" ps n in
  V2.voltage c' = Py.max (V2.voltage c - 0.01) (V2.min_voltage c)
  /\ V2.soc c' = Py.max (V2.soc c - 0.3) 0
  /\ V2.current c' = - Py.abs (Py.get ps "current" 1.0)
  /\ V2.status c' = "DISCHARGING".
Proof.
  unfold V2.simulate_battery_operation. cbn.
  match goal with |- context [Py.gtb ?x ?y] => destruct (Py.gtb x y) end;
    cbn; repeat split.
Qed.

Lemma simulate_idle (c : V2.Cell) (ty : string) (ps : gmap string Q) (n : Q) :
  ty <> "CC_CV" -> ty <> "CC_CD" ->
  V2.simulate_battery_operation c ty ps n
  = V2.set_capacity (Py.round (V2.voltage c * Py.abs 0.0) 2)
      (V2.set_status "IDLE" (V2.set_current 0.0 c)).
Proof.
  intros H1 H2. unfold V2.simulate_battery_operation.
  destruct (String.eqb_spec ty "CC_CV") as [E|_]; [contradiction|].
  destruct (String.eqb_spec ty "CC_CD") as [E|_]; [contradiction|].
  reflexivity.
Qed.

(** The update tells charging, discharging and idling apart by the task
    type alone, any type other than CC_CV and CC_CD idling: a charging cell
    carries the task's current, a discharging cell a current that is not
    positive, and an idle cell no current and no capacity, with its voltage,
    state of charge and temperature untouched. *)
Theorem simulate_battery_operation_modes
    (c : V2.Cell) (task_type : string) (task_params : gmap string Q) (temp_noise : Q) :
  let c' := V2.simulate_battery_operation c task_type task_params temp_noise in
  (task_type = "CC_CV" /\ V2.status c' = "CHARGING"
   /\ V2.current c' = Py.get task_params "current" 1.0)
  \/ (task_type = "CC_CD" /\ V2.status c' = "DISCHARGING" /\ V2.current c' <= 0)
  \/ (task_type <> "CC_CV" /\ task_type <> "CC_CD" /\ V2.status c' = "IDLE"
      /\ V2.current c' == 0 /\ V2.capacity c' == 0
      /\ V2.voltage c' = V2.voltage c /\ V2.soc c' = V2.soc c
      /\ V2.temp c' = V2.temp c).
Proof.
  cbv zeta.
  destruct (String.eqb_spec task_type "CC_CV") as [->|H1].
  - left. destruct (simulate_cc_cv c task_params temp_noise) as (_ & _ & Hi & Hs).
    auto.
  - destruct (String.eqb_spec task_type "CC_CD") as [->|H2].
    + right; left.
      destruct (simulate_cc_cd c task_params temp_noise) as (_ & _ & Hi & Hs).
      split; [reflexivity|]. split; [exact Hs|]. rewrite Hi. unfold Py.abs.
      pose proof (Qabs_nonneg (Py.get task_params "current" 1.0)). lra.
    + right; right. rewrite (simulate_idle c task_type task_params temp_noise H1 H2).
      cbn [V2.status V2.current V2.capacity V2.voltage V2.soc V2.temp
           V2.set_capacity V2.set_status V2.set_current].
      repeat split; try assumption; try reflexivity.
      assert (E : V2.voltage c * Py.abs 0.0 == 0)
        by (unfold Py.abs, Qeq; cbn; lia).
      rewrite (round_comp _ _ 2 E). reflexivity.
Qed.

(** A quantity raised by [a] and capped at [top] in every step is, after
    any number of steps, the start raised that many times, capped once. *)
Lemma foldl_capped {A : Type} (step : A -> Q -> A) (proj : A -> Q) (inv : A -> Prop)
    (a top : Q) :
  0 <= a ->
  (forall c n, inv c -> inv (step c n) /\ proj (step c n) = Py.min (proj c + a) top) ->
  forall (noises : list Q) (c : A),
    inv c -> proj c <= top ->
    inv (foldl step c noises)
    /\ proj (foldl step c noises)
       == Qmin (proj c + inject_Z (Z.of_nat (length noises)) * a) top.
Proof.
  intros Ha Hstep noises c Hc Hle.
  induction noises as [|n noises [IHi IH]] using rev_ind.
  - split; [exact Hc|]. cbn. change (inject_Z 0) with 0.
    destruct (Q.min_spec (proj c + 0 * a) top) as [[H E]|[H E]]; rewrite E; lra.
  - rewrite foldl_app. cbn [foldl].
    destruct (Hstep (foldl step c noises) n IHi) as [Hi E]. split; [exact Hi|].
    rewrite E, length_app. cbn [length].
    replace (Z.of_nat (length noises + 1)) with (Z.of_nat (length noises) + 1)%Z by lia.
    rewrite inject_Z_plus. change (inject_Z 1) with 1.
    assert (Hk : 0 <= inject_Z (Z.of_nat (length noises)))
      by (change 0 with (inject_Z 0); rewrite <- Zle_Qle; lia).
    remember (inject_Z (Z.of_nat (length noises))) as k eqn:Ek. clear Ek.
    remember (proj (foldl step c noises)) as x eqn:Ex. clear Ex E.
    assert (Hka : 0 <= k * a) by (apply Qmult_le_0_compat; assumption).
    remember (k * a) as ka eqn:Eka.
    assert (Ek1 : (k + 1) * a == ka + a) by (rewrite Eka; ring).
    rewrite Ek1. clear Eka Ek1.
    destruct (Q.min_spec (proj c + ka) top) as [[H1 E1]|[H1 E1]];
      rewrite E1 in IH;
      destruct (Q.min_spec (proj c + (ka + a)) top) as [[H2 E2]|[H2 E2]];
      rewrite E2; py_cases; lra.
Qed.

(** The same for a quantity lowered by [a] and floored at [bottom]. *)
Lemma foldl_floored {A : Type} (step : A -> Q -> A) (proj : A -> Q) (inv : A -> Prop)
    (a bottom : Q) :
  0 <= a ->
  (forall c n, inv c -> inv (step c n) /\ proj (step c n) = Py.max (proj c - a) bottom) ->
  forall (noises : list Q) (c : A),
    inv c -> bottom <= proj c ->
    inv (foldl step c noises)
    /\ proj (foldl step c noises)
       == Qmax (proj c - inject_Z (Z.of_nat (length noises)) * a) bottom.
Proof.
  intros Ha Hstep noises c Hc Hle.
  induction noises as [|n noises [IHi IH]] using rev_ind.
  - split; [exact Hc|]. cbn. change (inject_Z 0) with 0.
    destruct (Q.max_spec (proj c - 0 * a) bottom) as [[H E]|[H E]]; rewrite E; lra.
  - rewrite foldl_app. cbn [foldl].
    destruct (Hstep (foldl step c noises) n IHi) as [Hi E]. split; [exact Hi|].
    rewrite E, length_app. cbn [length].
    replace (Z.of_nat (length noises + 1)) with (Z.of_nat (length noises) + 1)%Z by lia.
    rewrite inject_Z_plus. change (inject_Z 1) with 1.
    assert (Hk : 0 <= inject_Z (Z.of_nat (length noises)))
      by (change 0 with (inject_Z 0); rewrite <- Zle_Qle; lia).
    remember (inject_Z (Z.of_nat (length noises))) as k eqn:Ek. clear Ek.
    remember (proj (foldl step c noises)) as x eqn:Ex. clear Ex E.
    assert (Hka : 0 <= k * a) by (apply Qmult_le_0_compat; assumption).
    remember (k * a) as ka eqn:Eka.
    assert (Ek1 : (k + 1) * a == ka + a) by (rewrite Eka; ring).
    rewrite Ek1. clear Eka Ek1.
    destruct (Q.max_spec (proj c - ka) bottom) as [[H1 E1]|[H1 E1]];
      rewrite E1 in IH;
      destruct (Q.max_spec (proj c - (ka + a)) bottom) as [[H2 E2]|[H2 E2]];
      rewrite E2; py_cases; lra.
Qed.

(** Any number of charging updates in a row raise the voltage by 0.01 V and
    the state of charge by 0.5 points each, up to the cell's maximum voltage
    and to 100; any number of discharging updates lower them by 0.01 V and
    0.3 points each, down to the cell's minimum voltage and to 0. *)
Theorem repeated_operation_closed_form
    (c : V2.Cell) (task_params : gmap string Q) (noises : list Q) :
  let charged :=
    foldl (fun c n => V2.simulate_battery_operation c "CC_CV" task_params n) c noises in
  let discharged :=
    foldl (fun c n => V2.simulate_battery_operation c "CC_CD" task_params n) c noises in
  let k := inject_Z (Z.of_nat (length noises)) in
  (V2.voltage c <= V2.max_voltage c ->
   V2.voltage charged == Qmin (V2.voltage c + k * 0.01) (V2.max_voltage c))
  /\ (V2.soc c <= 100 -> V2.soc charged == Qmin (V2.soc c + k * 0.5) 100)
  /\ (V2.min_voltage c <= V2.voltage c ->
      V2.voltage discharged == Qmax (V2.voltage c - k * 0.01) (V2.min_voltage c))
  /\ (0 <= V2.soc c -> V2.soc discharged == Qmax (V2.soc c - k * 0.3) 0).
Proof.
  cbv zeta. split; [|split; [|split]]; intros H.
  - apply (foldl_capped _ V2.voltage (fun x => V2.max_voltage x = V2.max_voltage c));
      [lra | | reflexivity | exact H].
    intros x n Hx. destruct (simulate_keeps_bounds x "CC_CV" task_params n) as [_ Em].
    destruct (simulate_cc_cv x task_params n) as (Ev & _). split; [congruence|].
    rewrite Ev, Hx. reflexivity.
  - apply (foldl_capped _ V2.soc (fun _ => True)); [lra | | exact I | exact H].
    intros x n _. destruct (simulate_cc_cv x task_params n) as (_ & Es & _).
    split; [exact I | exact Es].
  - apply (foldl_floored _ V2.voltage (fun x => V2.min_voltage x = V2.min_voltage c));
      [lra | | reflexivity | exact H].
    intros x n Hx. destruct (simulate_keeps_bounds x "CC_CD" task_params n) as [Em _].
    destruct (simulate_cc_cd x task_params n) as (Ev & _). split; [congruence|].
    rewrite Ev, Hx. reflexivity.
  - apply (foldl_floored _ V2.soc (fun _ => True)); [lra | | exact I | exact H].
    intros x n _. destruct (simulate_cc_cd x task_params n) as (_ & Es & _).
    split; [exact I | exact Es].
Qed.

Lemma repeated_operation_closed_form_witness :
  let c := V2.new_cell "lfp" 1 30 50 90 in
  let ps : gmap string Q := <["current" := 2.0]> ∅ in
  V2.voltage (foldl (fun c n => V2.simulate_battery_operation c "CC_CV" ps n) c
                (replicate 60 0))
  == Qmin (V2.voltage c + inject_Z (Z.of_nat (length (replicate 60 0))) * 0.01)
          (V2.max_voltage c)
  /\ V2.soc (foldl (fun c n => V2.simulate_battery_operation c "CC_CD" ps n) c
               (replicate 60 0))
     == Qmax (V2.soc c - inject_Z (Z.of_nat (length (replicate 60 0))) * 0.3) 0.
Proof.
  cbv zeta. split.
  - apply (proj1 (repeated_operation_closed_form _ _ (replicate 60 0))).
    vm_compute. discriminate.
  - apply (proj2 (proj2 (proj2 (repeated_operation_closed_form _ _ (replicate 60 0))))).
    vm_compute. discriminate.
Defined.

(** An update keeps a state of charge that is in [0,100] in [0,100]; it
    leaves the temperature in [20,50] when the cell carries a current and
    as it was when it carries none. *)
Theorem simulate_battery_operation_ranges
    (c : V2.Cell) (task_type : string) (task_params : gmap string Q) (temp_noise : Q) :
  let c' := V2.simulate_battery_operation c task_type task_params temp_noise in
  (0 <= V2.soc c <= 100 -> 0 <= V2.soc c' <= 100)
  /\ (~ V2.current c' == 0 -> 20 <= V2.temp c' <= 50)
  /\ (V2.current c' == 0 -> V2.temp c' = V2.temp c).
Proof.
  cbv zeta. unfold V2.simulate_battery_operation.
  destruct (String.eqb task_type "CC_CV"); [|destruct (String.eqb task_type "CC_CD")];
    cbn [V2.current V2.set_current V2.set_voltage V2.set_soc V2.set_status];
    unfold Py.abs;
    match goal with
    | |- context [Py.gtb (Qabs ?x) 0] =>
        destruct (Py.gtb (Qabs x) 0) eqn:Hc;
        [apply ltb_true in Hc | apply ltb_false in Hc];
        pose proof (Qabs_nonneg x) as Hn;
        assert (Hz : Qabs x == 0 <-> x == 0)
          by (split; [apply Qabs_case; intros; lra
                     | intros E0; rewrite E0; reflexivity])
    end;
    cbn [V2.soc V2.temp V2.current V2.set_current V2.set_voltage V2.set_soc
         V2.set_status V2.set_temp V2.set_capacity];
    (split; [intros Hs; py_cases; lra|]);
    (split; [intros Hne | intros He]).
  all: try (apply clamp_bounds; lra).
  all: try reflexivity.
  all: try (exfalso; apply Hne, Hz; lra).
  all: try (exfalso; apply Hz in He; lra).
Qed.

Lemma simulate_battery_operation_ranges_witness :
  let c := V2.simulate_battery_operation
             (V2.new_cell "lfp" 1 30 100 90) "CC_CV" (<["current" := 2.0]> ∅) 0.25 in
  0 <= V2.soc c <= 100 /\ 20 <= V2.temp c <= 50.
Proof.
  cbv zeta. split.
  - apply (proj1 (simulate_battery_operation_ranges _ _ _ _)).
    split; vm_compute; discriminate.
  - apply (proj1 (proj2 (simulate_battery_operation_ranges _ _ _ _))).
    vm_compute. discriminate.
Defined.

End Operation.

(** ** The script of variant 2 *)

Section Script.

Local Open Scope string_scope.
Local Open Scope Q_scope.

Lemma new_task_params_has_duration (w : V2.Widgets) :
  is_Some (V2.new_task_params w !! "time_seconds").
Proof.
  unfold V2.new_task_params.
  destruct (String.eqb (V2.new_task w) "CC_CV");
    [|destruct (String.eqb (V2.new_task w) "CC_CD")];
    rewrite lookup_insert_eq; eexists; reflexivity.
Qed.

Lemma sequence_step_queue_ok (clk : V2.Clock) (s : V2.Session) :
  V2.queue_ok s ->
  exists s' : V2.Session, V2.sequence_step clk s = Some s' /\ V2.queue_ok s'.
Proof.
  intros [Hall Hstep]. unfold V2.sequence_step.
  destruct (V2.simulation_running s) eqn:Hrun; [|exists s; split; [reflexivity | split; assumption]].
  destruct (V2.task_sequence s) as [|t0 ts] eqn:Hts;
    [exists s; split; [reflexivity|]; split; [rewrite Hts; constructor | rewrite Hts; right; split; [reflexivity|]; destruct Hstep as [H|[_ H]]; [cbn in H; lia | exact H]]|].
  destruct Hstep as [Hlt | [Hnil _]]; [|discriminate].
  destruct (lookup_lt_is_Some_2 (t0 :: ts) (V2.current_task_step s) Hlt) as [task Htask].
  rewrite Htask. cbn [mbind option_bind].
  assert (Hd : is_Some (V2.params task !! "time_seconds")).
  { rewrite Forall_forall in Hall. apply Hall.
    apply list_elem_of_lookup. eauto. }
  destruct Hd as [d Hd]. rewrite Hd. cbn [mbind option_bind].
  assert (Hall' : Forall (fun t => is_Some (V2.params t !! "time_seconds"))
                    (<[V2.current_task_step s := V2.complete task]> (t0 :: ts))).
  { apply Forall_insert; [exact Hall | exists d; exact Hd]. }
  destruct (Py.geb _ d).
  - rewrite length_insert.
    destruct (Nat.leb_spec (length (t0 :: ts)) (S (V2.current_task_step s))).
    + eexists. split; [reflexivity|]. split; [exact Hall'|].
      left. cbn [V2.current_task_step V2.task_sequence]. rewrite length_insert. cbn. lia.
    + eexists. split; [reflexivity|]. split; [exact Hall'|].
      left. cbn [V2.current_task_step V2.task_sequence]. rewrite length_insert. lia.
  - eexists. split; [reflexivity|]. split; [exact Hall|].
    left. exact Hlt.
Qed.

Lemma script_queue_ok (r : V2.Run) (s : V2.Session) :
  V2.queue_ok s ->
  exists s' : V2.Session,
    V2.script (V2.run_button r) (V2.run_widgets r) (V2.run_clock r) (V2.run_random r) s
    = Some s'
    /\ V2.queue_ok s'.
Proof.
  intros Hs. unfold V2.script.
  set (s1 := match V2.run_button r with V2.AddTaskButton => _ | _ => s end).
  assert (H1 : V2.queue_ok s1).
  { subst s1. destruct (V2.run_button r); try exact Hs.
    destruct Hs as [Hall Hstep]. split.
    - cbn [V2.set_task_sequence V2.task_sequence]. unfold V2.add_task, Py.append.
      apply Forall_app. split; [exact Hall|]. constructor; [|constructor].
      apply new_task_params_has_duration.
    - left. cbn [V2.set_task_sequence V2.task_sequence V2.current_task_step].
      unfold V2.add_task, Py.append. rewrite length_app. cbn [length].
      destruct Hstep as [H|[_ H]]; lia. }
  clearbody s1.
  set (s2 := match V2.run_button r with V2.ClearButton => _ | _ => s1 end).
  assert (H2 : V2.queue_ok s2).
  { subst s2. destruct (V2.run_button r); try exact H1.
    split; [constructor | right; split; reflexivity]. }
  clearbody s2.
  destruct (V2.current_task s2) as [ty ps].
  set (s3 := match V2.run_button r with V2.ResetButton => _ | _ => _ end).
  assert (H3 : V2.queue_ok s3).
  { subst s3. destruct (V2.run_button r); exact H2. }
  clearbody s3.
  destruct (sequence_step_queue_ok (V2.run_clock r) s3 H3) as (s4 & -> & H4).
  cbn [mbind option_bind].
  destruct (V2.simulation_running s4); eexists; (split; [reflexivity|]); exact H4.
Qed.

(** Whatever buttons are pressed, with whatever widget values and clock
    readings, no run of the script fails in the sequencer: the step is
    always an index of the queue and every task has its duration.  This
    holds from a fresh session on, and from any session in that state. *)
Theorem scripts_never_fail (runs : list V2.Run) :
  (forall cells : list (string * V2.Cell),
      exists s' : V2.Session,
        V2.scripts runs (V2.fresh_session cells) = Some s' /\ V2.queue_ok s')
  /\ (forall s : V2.Session,
         V2.queue_ok s ->
         exists s' : V2.Session, V2.scripts runs s = Some s' /\ V2.queue_ok s').
Proof.
  assert (H : forall s : V2.Session,
             V2.queue_ok s ->
             exists s' : V2.Session, V2.scripts runs s = Some s' /\ V2.queue_ok s').
  { induction runs as [|r runs IH]; intros s Hs.
    - exists s. split; [reflexivity | exact Hs].
    - cbn [V2.scripts]. destruct (script_queue_ok r s Hs) as (s1 & -> & H1).
      cbn [mbind option_bind]. apply IH. exact H1. }
  split; [|exact H].
  intros cells. apply H. split; [constructor | right; split; reflexivity].
Qed.

Lemma scripts_never_fail_witness :
  exists s' : V2.Session,
    V2.scripts [V2.mkRun V2.StartButton V2.idle_widgets (V2.mkClock 0 0 0 0) (fun _ => 0)]
      V2.session_10_20_5 = Some s'
    /\ V2.queue_ok s'.
Proof.
  apply (proj2 (scripts_never_fail _)).
  split.
  - repeat constructor; cbn; rewrite lookup_insert_eq; eexists; reflexivity.
  - left. cbn. lia.
Defined.

Lemma same_task_refl (t : V2.Task) : V2.same_task t t.
Proof. repeat split. auto. Qed.

Lemma same_task_trans (t1 t2 t3 : V2.Task) :
  V2.same_task t1 t2 -> V2.same_task t2 t3 -> V2.same_task t1 t3.
Proof.
  intros (A1 & A2 & A3) (B1 & B2 & B3). repeat split; try congruence. auto.
Qed.

Lemma Forall2_same_task_refl (tasks : list V2.Task) : Forall2 V2.same_task tasks tasks.
Proof. induction tasks; constructor; [apply same_task_refl | assumption]. Qed.

Lemma extends_refl (tasks : list V2.Task) : V2.extends tasks tasks.
Proof.
  exists tasks, []. split; [now rewrite app_nil_r | apply Forall2_same_task_refl].
Qed.

Lemma extends_trans (a b c : list V2.Task) : V2.extends a b -> V2.extends b c -> V2.extends a c.
Proof.
  intros (k1 & d1 & -> & H1) (k2 & d2 & -> & H2).
  apply Forall2_app_inv_l in H2 as (k2a & k2b & Ha & Hb & ->).
  exists k2a, (k2b ++ d2)%list. split; [now rewrite app_assoc|].
  revert k2a Ha. induction H1 as [|x y l l' Hxy _ IH]; intros k2a Ha.
  - inversion Ha; subst. constructor.
  - inversion Ha as [|? z ? l'' Hyz Hrest]; subst. constructor.
    + exact (same_task_trans _ _ _ Hxy Hyz).
    + apply IH. exact Hrest.
Qed.

Lemma sequence_step_extends (clk : V2.Clock) (s s' : V2.Session) :
  V2.sequence_step clk s = Some s' ->
  V2.extends (V2.task_sequence s) (V2.task_sequence s').
Proof.
  unfold V2.sequence_step.
  destruct (V2.simulation_running s); [|intros [= <-]; apply extends_refl].
  destruct (V2.task_sequence s) as [|t0 ts] eqn:Hts;
    [intros [= <-]; rewrite Hts; apply extends_refl|].
  destruct ((t0 :: ts) !! V2.current_task_step s) as [task|] eqn:Htask; [|discriminate].
  cbn [mbind option_bind].
  destruct (V2.params task !! "time_seconds") as [d|]; [|discriminate].
  cbn [mbind option_bind].
  assert (Hins : V2.extends (t0 :: ts)
                   (<[V2.current_task_step s := V2.complete task]> (t0 :: ts))).
  { eexists _, []. split; [now rewrite app_nil_r|].
    apply Forall2_same_length_lookup. split; [now rewrite length_insert|].
    intros i x y Hx Hy.
    destruct (Nat.eq_dec (V2.current_task_step s) i) as [<-|Hne].
    - rewrite list_lookup_insert_eq in Hy by (eapply lookup_lt_Some; eauto).
      injection Hy as <-. rewrite Htask in Hx. injection Hx as <-.
      repeat split.
    - rewrite list_lookup_insert_ne in Hy by exact Hne.
      rewrite Hx in Hy. injection Hy as <-. apply same_task_refl. }
  destruct (Py.geb _ d).
  - destruct (Nat.leb _ _); intros [= <-]; exact Hins.
  - intros [= <-]. cbn [V2.task_sequence]. apply extends_refl.
Qed.

Lemma script_extends (r : V2.Run) (s s' : V2.Session) :
  V2.run_button r <> V2.ClearButton ->
  V2.script (V2.run_button r) (V2.run_widgets r) (V2.run_clock r) (V2.run_random r) s
  = Some s' ->
  V2.extends (V2.task_sequence s) (V2.task_sequence s').
Proof.
  intros Hb. unfold V2.script.
  set (s1 := match V2.run_button r with V2.AddTaskButton => _ | _ => s end).
  assert (H1 : V2.extends (V2.task_sequence s) (V2.task_sequence s1)).
  { subst s1. destruct (V2.run_button r); try apply extends_refl.
    cbn [V2.set_task_sequence V2.task_sequence]. unfold V2.add_task, Py.append.
    eexists _, _. split; [reflexivity | apply Forall2_same_task_refl]. }
  clearbody s1.
  set (s2 := match V2.run_button r with V2.ClearButton => _ | _ => s1 end).
  assert (H2 : V2.task_sequence s2 = V2.task_sequence s1).
  { subst s2. destruct (V2.run_button r); try reflexivity. contradiction. }
  clearbody s2.
  destruct (V2.current_task s2) as [ty ps].
  set (s3 := match V2.run_button r with V2.ResetButton => _ | _ => _ end).
  assert (H3 : V2.task_sequence s3 = V2.task_sequence s2).
  { subst s3. destruct (V2.run_button r); reflexivity. }
  clearbody s3.
  destruct (V2.sequence_step (V2.run_clock r) s3) as [s4|] eqn:H4; [|discriminate].
  cbn [mbind option_bind].
  apply sequence_step_extends in H4. rewrite H3, H2 in H4.
  destruct (V2.simulation_running s4); intros [= <-];
    cbn [V2.update_simulation V2.task_sequence];
    exact (extends_trans _ _ _ H1 H4).
Qed.

(** Only "Clear Sequence" removes or rewrites tasks: over any runs of the
    script in which it is not pressed, every task of the queue stays at its
    place with its type and its parameters, a task that was completed stays
    completed, and new tasks come after the old ones. *)
Theorem scripts_keep_tasks (runs : list V2.Run) (s s' : V2.Session) :
  Forall (fun r => V2.run_button r <> V2.ClearButton) runs ->
  V2.scripts runs s = Some s' ->
  exists kept added : list V2.Task,
    V2.task_sequence s' = (kept ++ added)%list
    /\ Forall2 (fun t t' =>
                  V2.task_type t' = V2.task_type t
                  /\ V2.params t' = V2.params t
                  /\ (V2.completed t = true -> V2.completed t' = true))
               (V2.task_sequence s) kept.
Proof.
  intros Hruns. revert s. induction Hruns as [|r runs Hr _ IH]; intros s.
  - intros [= <-]. apply extends_refl.
  - cbn [V2.scripts].
    destruct (V2.script _ _ _ _ s) as [s1|] eqn:H1; [|discriminate].
    cbn [mbind option_bind]. intros Hrest.
    exact (extends_trans _ _ _ (script_extends r s s1 Hr H1) (IH s1 Hrest)).
Qed.

Lemma scripts_keep_tasks_witness :
  let s' := default V2.session_10_20_5 (V2.scripts V2.three_runs V2.session_10_20_5) in
  exists kept added : list V2.Task,
    V2.task_sequence s' = (kept ++ added)%list
    /\ Forall2 (fun t t' =>
                  V2.task_type t' = V2.task_type t
                  /\ V2.params t' = V2.params t
                  /\ (V2.completed t = true -> V2.completed t' = true))
               (V2.task_sequence V2.session_10_20_5) kept.
Proof.
  cbv zeta. apply (scripts_keep_tasks V2.three_runs V2.session_10_20_5).
  - repeat constructor; discriminate.
  - vm_compute. reflexivity.
Defined.

(** A run of the script with no button pressed is [rerun]. *)
Lemma script_no_button (w : V2.Widgets) (clk : V2.Clock) (rnd : string -> Q)
    (s : V2.Session) :
  V2.script V2.NoButton w clk rnd s = V2.rerun clk rnd s.
Proof. reflexivity. Qed.



(** With an empty queue a running simulation idles: every run sets each
    cell's current to 0 and its status to IDLE, leaves its voltage, state of
    charge and temperature alone, and appends one history record per
    cell. *)
Theorem rerun_empty_queue (clk : V2.Clock) (rnd : string -> Q) (s : V2.Session) :
  V2.task_sequence s = [] ->
  V2.simulation_running s = true ->
  exists s' : V2.Session,
    V2.rerun clk rnd s = Some s'
    /\ V2.simulation_running s' = true
    /\ Forall2 (fun kc kc' =>
                  fst kc' = fst kc
                  /\ V2.status (snd kc') = "IDLE"
                  /\ V2.current (snd kc') == 0
                  /\ V2.voltage (snd kc') = V2.voltage (snd kc)
                  /\ V2.soc (snd kc') = V2.soc (snd kc)
                  /\ V2.temp (snd kc') = V2.temp (snd kc))
               (V2.cells_data s) (V2.cells_data s')
    /\ length (V2.historical_data s')
       = (length (V2.historical_data s) + length (V2.cells_data s))%nat.
Proof.
  intros Hq Hr. unfold V2.rerun, V2.current_task, V2.sequence_step.
  rewrite Hq, Hr. cbn [mbind option_bind]. rewrite Hr.
  eexists. split; [reflexivity|]. split; [exact Hr|]. split.
  - cbn [V2.update_simulation V2.cells_data].
    apply Forall2_fmap_r, Forall_Forall2_diag, Forall_forall.
    intros [k c] _. unfold compose. cbn [fst snd].
    rewrite simulate_idle by discriminate.
    cbn. repeat split.
  - rewrite update_simulation_history, length_app, length_map.
    cbn [V2.update_simulation V2.cells_data]. now rewrite length_map.
Qed.

Lemma rerun_empty_queue_witness :
  exists s' : V2.Session,
    V2.rerun (V2.mkClock 0 0 0 0) (fun _ => 0) V2.idle_session = Some s'
    /\ V2.simulation_running s' = true
    /\ Forall2 (fun kc kc' =>
                  fst kc' = fst kc
                  /\ V2.status (snd kc') = "IDLE"
                  /\ V2.current (snd kc') == 0
                  /\ V2.voltage (snd kc') = V2.voltage (snd kc)
                  /\ V2.soc (snd kc') = V2.soc (snd kc)
                  /\ V2.temp (snd kc') = V2.temp (snd kc))
               (V2.cells_data V2.idle_session) (V2.cells_data s')
    /\ length (V2.historical_data s')
       = (length (V2.historical_data V2.idle_session)
          + length (V2.cells_data V2.idle_session))%nat.
Proof. apply rerun_empty_queue; reflexivity. Defined.

(** For a task of positive duration that has run for a time that is not
    negative, the time left is between 0 and the duration and the progress
    between 0 and 1, as the progress bar requires; and the bar is full
    exactly when no time is left. *)
Theorem task_progress_bounds (time_seconds elapsed_time : Q) :
  0 < time_seconds ->
  0 <= elapsed_time ->
  0 <= V2.remaining_time time_seconds elapsed_time <= time_seconds
  /\ 0 <= V2.progress time_seconds elapsed_time <= 1
  /\ (V2.progress time_seconds elapsed_time == 1
      <-> V2.remaining_time time_seconds elapsed_time == 0).
Proof.
  intros Hd He. unfold V2.remaining_time, V2.progress.
  assert (H0 : 0 <= elapsed_time / time_seconds)
    by (apply Qle_shift_div_l; lra).
  assert (H1 : elapsed_time / time_seconds < 1 <-> elapsed_time < time_seconds).
  { split; intros H.
    - destruct (Qlt_le_dec elapsed_time time_seconds) as [|Hge]; [assumption|].
      assert (1 <= elapsed_time / time_seconds) by (apply Qle_shift_div_l; lra). lra.
    - apply Qlt_shift_div_r; lra. }
  remember (elapsed_time / time_seconds) as r eqn:Er. clear Er.
  destruct (Qlt_le_dec elapsed_time time_seconds) as [Hlt|Hge].
  - apply H1 in Hlt as Hr. py_cases; repeat split; intros; lra.
  - assert (Hr : 1 <= r).
    { destruct (Qlt_le_dec r 1) as [Hr|Hr]; [apply H1 in Hr; lra | exact Hr]. }
    py_cases; repeat split; intros; lra.
Qed.

Lemma task_progress_bounds_witness :
  0 <= V2.remaining_time 30 12 <= 30
  /\ 0 <= V2.progress 30 12 <= 1
  /\ (V2.progress 30 12 == 1 <-> V2.remaining_time 30 12 == 0).
Proof. apply task_progress_bounds; vm_compute; [reflexivity | discriminate]. Defined.

Lemma reachable_status (c : V2.Cell) :
  V2.reachable c ->
  V2.status c = "IDLE" \/ V2.status c = "CHARGING" \/ V2.status c = "DISCHARGING".
Proof.
  intros [ty id t so h | c0 ty ps n _].
  - left. reflexivity.
  - unfold V2.simulate_battery_operation.
    destruct (String.eqb ty "CC_CV"); [|destruct (String.eqb ty "CC_CD")];
      cbn [V2.current V2.set_current V2.set_voltage V2.set_soc V2.set_status];
      match goal with |- context [Py.gtb ?x ?y] => destruct (Py.gtb x y) end;
      cbn; auto.
Qed.

(** The card of a cell never falls back to the plain style: a cell created
    by the configuration loop and updated by the simulation is IDLE,
    CHARGING or DISCHARGING, and its card has the style of that status. *)
Theorem card_class_of_reachable (c : V2.Cell) :
  V2.reachable c ->
  (V2.status c = "IDLE" /\ V2.card_class c = "cell-card-idle")
  \/ (V2.status c = "CHARGING" /\ V2.card_class c = "cell-card-charging")
  \/ (V2.status c = "DISCHARGING" /\ V2.card_class c = "cell-card-discharging").
Proof.
  intros H. unfold V2.card_class.
  destruct (reachable_status c H) as [E | [E | E]]; rewrite E;
    [left | right; left | right; right]; split; reflexivity.
Qed.

Lemma card_class_of_reachable_witness :
  let c := V2.simulate_battery_operation
             (V2.new_cell "lfp" 1 30 50 90) "CC_CD" (<["current" := 2.0]> ∅) 0.25 in
  (V2.status c = "IDLE" /\ V2.card_class c = "cell-card-idle")
  \/ (V2.status c = "CHARGING" /\ V2.card_class c = "cell-card-charging")
  \/ (V2.status c = "DISCHARGING" /\ V2.card_class c = "cell-card-discharging").
Proof.
  cbv zeta. apply card_class_of_reachable.
  apply V2.reachable_tick, V2.reachable_new.
Defined.

End Script.
